(** * Penguins inference API (main.py): registry, active model, prediction

    A shallow embedding of [main.py].  The module keeps three process-wide
    globals ([ACTIVE_MODEL_NAME], [ACTIVE_MODEL_PIPE], [REGISTRY]), reads
    files below [MODELS_DIR] and raises Python exceptions.  Every function
    of the module is embedded as a computation in a small monad [py] that
    reads the disk, threads the globals, records the file-system and
    pipeline calls it makes, and ends in a returned value or a raised
    exception.  Assignments made before an exception is raised persist, as
    they do in Python. *)

From Stdlib Require Import PrimFloat Ascii String.
From stdpp Require Import base option list strings gmap.

Local Open Scope string_scope.

(** ** Values handed to the pipeline *)

(** The values a [PenguinFeatures] field can hold once [features.dict()]
    has been taken: [str], [float], [int] or [None]. *)
Inductive pyval : Type :=
  | PyStr (s : string)
  | PyFloat (x : float)
  | PyInt (n : Z)
  | PyNone.

(** A Python [dict] with string keys, in insertion order. *)
Definition pydict : Type := list (string * pyval).

(** [pandas.DataFrame]: the column labels and the rows of cells. *)
Record DataFrame : Type := MkDataFrame {
  columns : list string;
  rows : list (list pyval)
}.

(** [pd.DataFrame(records)] for a list of dicts sharing their keys: the
    columns are the keys of the records in their order, and there is one
    row per record. *)
Definition pd_DataFrame (records : list pydict) : DataFrame :=
  {| columns := match records with
                | [] => []
                | r :: _ => r.*1
                end;
     rows := map (fun r : pydict => r.*2) records |}.

(** ** Exceptions and outcomes *)

Inductive exn : Type :=
  | RuntimeError (msg : string)
  | HTTPException (status_code : Z) (detail : string)
  | AttributeError (msg : string)
  | FileNotFoundError
  | OSError (strerror : string)
  | JSONDecodeError
  | UnpicklingError
  | IndexError
  | PipelineError (msg : string).

Inductive outcome (A : Type) : Type :=
  | Return (a : A)
  | Raise (e : exn).
Arguments Return {A} a.
Arguments Raise {A} e.

(** ** Pipelines, registry and files *)

(** An object other than [None] that [joblib.load] has unpickled, the
    "Pipeline entrenado" of [load_model]'s docstring.  The module uses it
    through [.predict(df)] only, which takes a table and gives a sequence
    of labels, or raises (an [AttributeError] when the object has no such
    method).  [joblib.load] can also unpickle [None]: what it returns is
    an [option Pipeline]. *)
Record Pipeline : Type := MkPipeline {
  sk_predict : DataFrame -> outcome (list string)
}.

(** A dict that [json.load] gives for [registry.json], with the two keys
    of [load_registry]'s docstring: [default_model], a string, and
    [available_models], a list of strings.  Both are read with [dict.get],
    so each may be absent.  For [default_model], [None] stands for an
    absent key and equally for a JSON [null], which [.get("default_model")]
    answers with the same [None].  For [available_models], [None] stands
    for an absent key only: dicts whose [available_models] is [null] or
    not a list of strings, or whose [default_model] is not a string, are
    not represented. *)
Record registry : Type := MkRegistry {
  default_model : option string;
  available_models : option (list string)
}.

(** The values other than a dict and [None] that [json.load] can give: a
    list, a string, a number or a boolean.  Nothing in the module reads
    into such a value; only its Python type shows, in the message of the
    [AttributeError] that [.get] raises on it. *)
Inductive non_dict : Type :=
  | JsonList
  | JsonStr
  | JsonInt
  | JsonFloat
  | JsonBool.

Definition type_name (v : non_dict) : string :=
  match v with
  | JsonList => "list"
  | JsonStr => "str"
  | JsonInt => "int"
  | JsonFloat => "float"
  | JsonBool => "bool"
  end.

(** What the global [REGISTRY] holds when it is not [None]: whatever
    [json.load] returned, a dict or not. *)
Inductive registry_value : Type :=
  | Dict (r : registry)
  | NonDict (v : non_dict).

(** What the operating system answers for a path below [MODELS_DIR]: a
    JSON document that is an object, a JSON document that is [null]
    ([None]) or another non-object value, a joblib file with the object
    pickled in it ([None] included), a file that neither [json.load] nor
    [joblib.load] can read, or an error of [stat] other than "not found"
    (a name that is too long, a directory that may not be searched). *)
Inductive file : Type :=
  | JsonFile (r : registry)
  | JsonNonObject (v : option non_dict)
  | JoblibFile (obj : option Pipeline)
  | OtherFile
  | StatError (strerror : string).

(** The file system, by the path string handed to the operating system. *)
Abbreviation disk := (gmap string file).

(** ** Process-wide state *)

Record globals : Type := MkGlobals {
  ACTIVE_MODEL_NAME : option string;
  ACTIVE_MODEL_PIPE : option Pipeline;
  REGISTRY : option registry_value
}.

(** The module-level assignments: all three start as [None]. *)
Definition initial_globals : globals :=
  {| ACTIVE_MODEL_NAME := None; ACTIVE_MODEL_PIPE := None; REGISTRY := None |}.

(** Calls that leave the process: file-system reads and pipeline calls. *)
Inductive io_event : Type :=
  | PathExists (path : string)
  | JsonLoad (path : string)
  | JoblibLoad (path : string)
  | PredictCall (df : DataFrame).

(** ** The monad *)

Record ran (A : Type) : Type := Ran {
  outcome_of : outcome A;
  globals_of : globals;
  io_of : list io_event
}.
Arguments Ran {A} _ _ _.
Arguments outcome_of {A} _.
Arguments globals_of {A} _.
Arguments io_of {A} _.

Definition py (A : Type) : Type := disk -> globals -> ran A.

Module Py.

Definition ret {A} (a : A) : py A := fun _ g => Ran (Return a) g [].

Definition raise {A} (e : exn) : py A := fun _ g => Ran (Raise e) g [].

Definition bind {A B} (m : py A) (k : A -> py B) : py B :=
  fun d g =>
    let r := m d g in
    match outcome_of r with
    | Return a =>
        let r' := k a d (globals_of r) in
        Ran (outcome_of r') (globals_of r') (io_of r ++ io_of r')
    | Raise e => Ran (Raise e) (globals_of r) (io_of r)
    end.

(** Reading a global. *)
Definition read {A} (field : globals -> A) : py A :=
  fun _ g => Ran (Return (field g)) g [].

(** Assigning to a global declared with [global]. *)
Definition assign (update : globals -> globals) : py unit :=
  fun _ g => Ran (Return tt) (update g) [].

Definition set_ACTIVE_MODEL_NAME (v : option string) (g : globals) : globals :=
  {| ACTIVE_MODEL_NAME := v;
     ACTIVE_MODEL_PIPE := ACTIVE_MODEL_PIPE g;
     REGISTRY := REGISTRY g |}.

Definition set_ACTIVE_MODEL_PIPE (v : option Pipeline) (g : globals) : globals :=
  {| ACTIVE_MODEL_NAME := ACTIVE_MODEL_NAME g;
     ACTIVE_MODEL_PIPE := v;
     REGISTRY := REGISTRY g |}.

Definition set_REGISTRY (v : option registry_value) (g : globals) : globals :=
  {| ACTIVE_MODEL_NAME := ACTIVE_MODEL_NAME g;
     ACTIVE_MODEL_PIPE := ACTIVE_MODEL_PIPE g;
     REGISTRY := v |}.

(** [path.exists()]: [False] when [stat] finds nothing at the path; other
    errors of [stat] are raised again. *)
Definition path_exists (path : string) : py bool :=
  fun d g =>
    Ran (match d !! path with
         | Some (StatError strerror) => Raise (OSError strerror)
         | Some _ => Return true
         | None => Return false
         end) g [PathExists path].

(** [json.load(open(path))]: the dict, [None] for [null], or another
    value. *)
Definition json_load (path : string) : py (option registry_value) :=
  fun d g =>
    Ran (match d !! path with
         | Some (JsonFile r) => Return (Some (Dict r))
         | Some (JsonNonObject None) => Return None
         | Some (JsonNonObject (Some v)) => Return (Some (NonDict v))
         | Some (StatError strerror) => Raise (OSError strerror)
         | Some _ => Raise JSONDecodeError
         | None => Raise FileNotFoundError
         end) g [JsonLoad path].

(** [joblib.load(path)]: the unpickled object, [None] included. *)
Definition joblib_load (path : string) : py (option Pipeline) :=
  fun d g =>
    Ran (match d !! path with
         | Some (JoblibFile obj) => Return obj
         | Some (StatError strerror) => Raise (OSError strerror)
         | Some _ => Raise UnpicklingError
         | None => Raise FileNotFoundError
         end) g [JoblibLoad path].

(** [pipe.predict(df)] *)
Definition call_predict (pipe : Pipeline) (df : DataFrame) : py (list string) :=
  fun _ g => Ran (sk_predict pipe df) g [PredictCall df].

End Py.

(** [x ← m; k] and [m;; k] below are stdpp's notations for [mbind]. *)
#[global] Instance py_ret : MRet py := @Py.ret.
#[global] Instance py_bind : MBind py := fun A B k m => Py.bind m k.


(** ** Module constants *)

(** Paths are [pathlib] paths of a POSIX system, kept as the string
    [str(path)] that is handed to the operating system. *)

Definition is_slash (c : ascii) : bool := Ascii.eqb c "/"%char.

(** [s.split("/")] *)
Fixpoint split_slash (s : string) : list string :=
  match s with
  | EmptyString => [EmptyString]
  | String c rest =>
      if is_slash c then EmptyString :: split_slash rest
      else match split_slash rest with
           | x :: xs => String c x :: xs
           | [] => [String c EmptyString]
           end
  end.

(** The components [pathlib] keeps of a path string: empty ones (from
    doubled or trailing slashes) and ["."] are dropped, [".."] stays. *)
Definition path_parts (s : string) : list string :=
  List.filter (fun x => negb (String.eqb x "" || String.eqb x "."))
              (split_slash s).

Fixpoint leading_slashes (s : string) : nat :=
  match s with
  | EmptyString => 0
  | String c rest => if is_slash c then S (leading_slashes rest) else 0
  end.

(** The root of a path string: none for a relative path, ["//"] for
    exactly two leading slashes, ["/"] for any other absolute path. *)
Definition path_root (s : string) : string :=
  match leading_slashes s with
  | 0 => ""
  | 2 => "//"
  | _ => "/"
  end.

(** [str] of a path given by its root and components. *)
Definition format_path (root : string) (parts : list string) : string :=
  if String.eqb root ""
  then match parts with
       | [] => "."
       | _ => String.concat "/" parts
       end
  else root +:+ String.concat "/" parts.

(** [Path(a) / b]: an absolute [b] replaces [a]; a relative [b] adds its
    components to those of [a]. *)
Definition path_join (a b : string) : string :=
  if String.eqb (path_root b) ""
  then format_path (path_root a) (path_parts a ++ path_parts b)
  else format_path (path_root b) (path_parts b).

Definition MODELS_DIR : string := "models".

Definition REGISTRY_PATH : string := path_join MODELS_DIR "registry.json".

(** ** Request and response bodies *)

Record PenguinFeatures : Type := MkPenguinFeatures {
  island : string;
  bill_length_mm : option float;
  bill_depth_mm : option float;
  flipper_length_mm : option float;
  body_mass_g : option float;
  sex : option string;
  year : Z
}.

Record SelectModelRequest : Type := MkSelectModelRequest {
  model_name : string
}.

Definition of_optional_float (o : option float) : pyval :=
  match o with Some x => PyFloat x | None => PyNone end.

Definition of_optional_str (o : option string) : pyval :=
  match o with Some s => PyStr s | None => PyNone end.

(** [features.dict()]: the declared fields, in the order of declaration. *)
Definition features_dict (features : PenguinFeatures) : pydict :=
  [ ("island", PyStr (island features));
    ("bill_length_mm", of_optional_float (bill_length_mm features));
    ("bill_depth_mm", of_optional_float (bill_depth_mm features));
    ("flipper_length_mm", of_optional_float (flipper_length_mm features));
    ("body_mass_g", of_optional_float (body_mass_g features));
    ("sex", of_optional_str (sex features));
    ("year", PyInt (year features)) ].

Record HomeResponse : Type := MkHomeResponse {
  home_message : string;
  home_active_model : option string
}.

Record ModelsResponse : Type := MkModelsResponse {
  models_default_model : option string;
  models_available_models : list string;
  models_active_model : option string
}.

Record SelectModelResponse : Type := MkSelectModelResponse {
  select_message : string;
  select_active_model : option string
}.

Record PredictResponse : Type := MkPredictResponse {
  prediction : string;
  model_used : option string
}.

(** ** Helper functions of main.py *)

(** The message of the [AttributeError] for [.get] on a value that is not
    a dict. *)
Definition no_attribute_get (python_type : string) : exn :=
  AttributeError ("'" +:+ python_type +:+ "' object has no attribute 'get'").

(** What [.get] raises on [None] and on a value [v] that is not a dict. *)
Definition get_on_non_dict (v : option non_dict) : exn :=
  match v with
  | Some v => no_attribute_get (type_name v)
  | None => AttributeError "'NoneType' object has no attribute 'get'"
  end.

(** [REGISTRY.get(...)] on the global: the lookup goes through when the
    global holds a dict; on [None] (the module-level value, or a JSON
    [null]) and on any other value the attribute access raises. *)
Definition registry_dict : py registry :=
  r ← Py.read REGISTRY;
  match r with
  | Some (Dict r) => mret r
  | Some (NonDict v) => Py.raise (no_attribute_get (type_name v))
  | None => Py.raise (AttributeError "'NoneType' object has no attribute 'get'")
  end.

(** [REGISTRY.get("available_models", [])] *)
Definition get_available_models (r : registry) : list string :=
  default [] (available_models r).

Definition load_registry : py (option registry_value) :=
  present ← Py.path_exists REGISTRY_PATH;
  if negb present
  then Py.raise (RuntimeError "registry.json no existe en /models")
  else Py.json_load REGISTRY_PATH.

Definition model_path_of (model_name : string) : string :=
  path_join MODELS_DIR (model_name +:+ ".joblib").

Definition load_model (model_name : string) : py (option Pipeline) :=
  let model_path := model_path_of model_name in
  present ← Py.path_exists model_path;
  if negb present
  then Py.raise (HTTPException 404 ("Modelo no encontrado: " +:+ model_name))
  else Py.joblib_load model_path.

Definition set_active_model (model_name : string) : py unit :=
  pipe ← load_model model_name;
  Py.assign (Py.set_ACTIVE_MODEL_PIPE pipe);;
  Py.assign (Py.set_ACTIVE_MODEL_NAME (Some model_name)).

(** ** Startup *)

Definition startup_event : py unit :=
  loaded ← load_registry;
  Py.assign (Py.set_REGISTRY loaded);;
  r ← registry_dict;
  match default_model r with
  | None => Py.raise (RuntimeError "registry.json no tiene 'default_model'")
  | Some default_model => set_active_model default_model
  end.

(** ** Endpoints *)

Definition home : py HomeResponse :=
  name ← Py.read ACTIVE_MODEL_NAME;
  mret {| home_message := "API Penguins funcionando";
          home_active_model := name |}.

Definition list_models : py ModelsResponse :=
  r ← registry_dict;
  name ← Py.read ACTIVE_MODEL_NAME;
  mret {| models_default_model := default_model r;
          models_available_models := get_available_models r;
          models_active_model := name |}.

Definition select_model (req : SelectModelRequest) : py SelectModelResponse :=
  r ← registry_dict;
  let available := get_available_models r in
  if negb (bool_decide (model_name req ∈ available))
  then Py.raise (HTTPException 404 ("Modelo no disponible: " +:+ model_name req))
  else
    set_active_model (model_name req);;
    name ← Py.read ACTIVE_MODEL_NAME;
    mret {| select_message := "Modelo activo actualizado";
            select_active_model := name |}.

(** [seq[0]] *)
Definition first_item {A} (l : list A) : py A :=
  match l with
  | x :: _ => mret x
  | [] => Py.raise IndexError
  end.

Definition predict (features : PenguinFeatures) : py PredictResponse :=
  pipe ← Py.read ACTIVE_MODEL_PIPE;
  match pipe with
  | None => Py.raise (HTTPException 500 "Modelo no cargado")
  | Some pipe =>
      let df := pd_DataFrame [features_dict features] in
      preds ← Py.call_predict pipe df;
      pred ← first_item preds;
      name ← Py.read ACTIVE_MODEL_NAME;
      mret {| prediction := pred; model_used := name |}
  end.

(** ** Runs of the service *)

(** What the process can be asked to do: the startup hook and the four
    endpoints. *)
Inductive call : Type :=
  | CallStartup
  | CallHome
  | CallListModels
  | CallSelectModel (req : SelectModelRequest)
  | CallPredict (features : PenguinFeatures).

(** The globals a call leaves behind, whether it returned or raised. *)
Definition globals_after (c : call) (d : disk) (g : globals) : globals :=
  match c with
  | CallStartup => globals_of (startup_event d g)
  | CallHome => globals_of (home d g)
  | CallListModels => globals_of (list_models d g)
  | CallSelectModel req => globals_of (select_model req d g)
  | CallPredict features => globals_of (predict features d g)
  end.

(** States reached from the module-level assignments by any sequence of
    calls; the disk may differ from one call to the next. *)
Inductive reachable : globals -> Prop :=
  | reachable_initial : reachable initial_globals
  | reachable_call g c d :
      reachable g -> reachable (globals_after c d g).

(** States reached by a startup that completed, followed by model switches
    that completed. *)
Inductive serving : globals -> Prop :=
  | serving_startup d :
      outcome_of (startup_event d initial_globals) = Return tt ->
      serving (globals_of (startup_event d initial_globals))
  | serving_switch g d req resp :
      serving g ->
      outcome_of (select_model req d g) = Return resp ->
      serving (globals_of (select_model req d g)).

(** The active model's name is one of the registry's [available_models]. *)
Definition active_name_listed (g : globals) : Prop :=
  ∃ r name,
    REGISTRY g = Some (Dict r) ∧ ACTIVE_MODEL_NAME g = Some name ∧
    name ∈ get_available_models r.

(** The active model's name is listed, or it is the registry's
    [default_model]. *)
Definition active_name_listed_or_default (g : globals) : Prop :=
  ∃ r name,
    REGISTRY g = Some (Dict r) ∧ ACTIVE_MODEL_NAME g = Some name ∧
    (name ∈ get_available_models r ∨ default_model r = Some name).

(** The two active-model globals are both [None] or both set. *)
Definition name_and_pipe_agree (g : globals) : Prop :=
  ACTIVE_MODEL_NAME g = None ↔ ACTIVE_MODEL_PIPE g = None.

(** No pipeline is active without a name. *)
Definition pipe_has_name (g : globals) : Prop :=
  ACTIVE_MODEL_NAME g = None -> ACTIVE_MODEL_PIPE g = None.

(** No joblib file on the disk has [None] pickled in it. *)
Definition no_none_artifact (d : disk) : Prop :=
  ∀ path, d !! path ≠ Some (JoblibFile None).

(** States reached from the module-level assignments by calls on disks
    without a pickled [None]. *)
Inductive reachable_without_none : globals -> Prop :=
  | reachable_without_none_initial : reachable_without_none initial_globals
  | reachable_without_none_call g c d :
      reachable_without_none g -> no_none_artifact d ->
      reachable_without_none (globals_after c d g).

(** The artifact of [name] is on the disk and [joblib.load] unpickles
    [pipe] from it, an object or [None]. *)
Definition artifact_loads (d : disk) (name : string) (pipe : option Pipeline) : Prop :=
  d !! model_path_of name = Some (JoblibFile pipe).

(** The globals once [name] has been made active with what was unpickled
    for it. *)
Definition switched (g : globals) (name : string) (pipe : option Pipeline) : globals :=
  {| ACTIVE_MODEL_NAME := Some name; ACTIVE_MODEL_PIPE := pipe;
     REGISTRY := REGISTRY g |}.

(** ** Sample data *)

Module Sample.

(** A pipeline that labels every row the same way. *)
Definition always (label : string) : Pipeline :=
  {| sk_predict := fun df => Return (map (fun _ => label) (rows df)) |}.

Definition rf : Pipeline := always "Adelie".
Definition svm : Pipeline := always "Gentoo".

Definition rf_svm : registry :=
  {| default_model := Some "rf"; available_models := Some ["rf"; "svm"; "knn"] |}.

(** Registry and artifacts for rf and svm; knn is listed but has no file. *)
Definition models : disk :=
  <[ "models/registry.json" := JsonFile rf_svm ]>
  (<[ "models/rf.joblib" := JoblibFile (Some rf) ]>
  (<[ "models/svm.joblib" := JoblibFile (Some svm) ]> ∅)).

(** A default model that [available_models] does not list. *)
Definition unlisted_default : registry :=
  {| default_model := Some "xgb"; available_models := Some ["rf"] |}.

Definition models_unlisted_default : disk :=
  <[ "models/registry.json" := JsonFile unlisted_default ]>
  (<[ "models/xgb.joblib" := JoblibFile (Some rf) ]>
  (<[ "models/rf.joblib" := JoblibFile (Some rf) ]> ∅)).

(** A descriptor without [default_model]. *)
Definition no_default : registry :=
  {| default_model := None; available_models := Some ["rf"] |}.

Definition models_no_default : disk :=
  <[ "models/registry.json" := JsonFile no_default ]>
  (<[ "models/rf.joblib" := JoblibFile (Some rf) ]> ∅).

Definition empty_models : disk := ∅.

Definition biscoe : PenguinFeatures :=
  {| island := "Biscoe"; bill_length_mm := None; bill_depth_mm := None;
     flipper_length_mm := None; body_mass_g := None; sex := None;
     year := 2008 |}.

(** The globals once startup has run on [models]. *)
Definition started : globals :=
  {| ACTIVE_MODEL_NAME := Some "rf"; ACTIVE_MODEL_PIPE := Some rf;
     REGISTRY := Some (Dict rf_svm) |}.

(** A descriptor without [available_models]. *)
Definition no_available : registry :=
  {| default_model := Some "rf"; available_models := None |}.

Definition models_no_available : disk :=
  <[ "models/registry.json" := JsonFile no_available ]>
  (<[ "models/rf.joblib" := JoblibFile (Some rf) ]> ∅).

(** The registry of [models], with the artifact of its default model gone. *)
Definition models_without_rf : disk :=
  <[ "models/registry.json" := JsonFile rf_svm ]>
  (<[ "models/svm.joblib" := JoblibFile (Some svm) ]> ∅).

(** [models] after [registry.json] has been rewritten on disk. *)
Definition models_edited : disk :=
  <[ "models/registry.json" := JsonFile unlisted_default ]> models.

(** A pipeline whose [predict] gives an empty sequence. *)
Definition silent : Pipeline :=
  {| sk_predict := fun _ => Return [] |}.

(** A pipeline whose [predict] raises. *)
Definition broken : Pipeline :=
  {| sk_predict := fun _ => Raise (PipelineError "could not convert string to float") |}.

(** [models] with [None] pickled in the artifact of the default model. *)
Definition models_none_artifact : disk :=
  <[ "models/rf.joblib" := JoblibFile None ]> models.

(** [models] after [registry.json] has been overwritten with [null], and
    with a JSON list. *)
Definition models_null_registry : disk :=
  <[ "models/registry.json" := JsonNonObject None ]> models.

Definition models_list_registry : disk :=
  <[ "models/registry.json" := JsonNonObject (Some JsonList) ]> models.

Definition dream : PenguinFeatures :=
  {| island := "Dream"; bill_length_mm := None; bill_depth_mm := None;
     flipper_length_mm := None; body_mass_g := None; sex := Some "male";
     year := 2009 |}.

End Sample.

(** * Properties *)

(** ** The helper functions, case by case *)

(** Unfolds the monad down to runs on a disk and globals. *)
Ltac py_unfold :=
  unfold mbind, mret, py_bind, py_ret, Py.bind, Py.ret, Py.raise, Py.read,
    Py.assign, Py.path_exists, Py.json_load, Py.joblib_load, Py.call_predict;
  cbn [outcome_of globals_of io_of].

Lemma ran_eta {A} (r : ran A) : Ran (outcome_of r) (globals_of r) (io_of r) = r.
Proof. destruct r; reflexivity. Qed.

Lemma bind_return {A B} (m : py A) (k : A -> py B) d g a g' io :
  m d g = Ran (Return a) g' io ->
  (m ≫= k) d g =
    Ran (outcome_of (k a d g')) (globals_of (k a d g')) (io ++ io_of (k a d g')).
Proof. intros Hm. unfold mbind, py_bind, Py.bind. rewrite Hm. reflexivity. Qed.

Lemma bind_raise {A B} (m : py A) (k : A -> py B) d g e g' io :
  m d g = Ran (Raise e) g' io ->
  (m ≫= k) d g = Ran (Raise e) g' io.
Proof. intros Hm. unfold mbind, py_bind, Py.bind. rewrite Hm. reflexivity. Qed.

(** [load_registry] is decided by what is at [REGISTRY_PATH]. *)
Lemma load_registry_lookup d g :
  load_registry d g =
    match d !! REGISTRY_PATH with
    | Some (JsonFile r) =>
        Ran (Return (Some (Dict r))) g
            [PathExists REGISTRY_PATH; JsonLoad REGISTRY_PATH]
    | Some (JsonNonObject None) =>
        Ran (Return None) g [PathExists REGISTRY_PATH; JsonLoad REGISTRY_PATH]
    | Some (JsonNonObject (Some v)) =>
        Ran (Return (Some (NonDict v))) g
            [PathExists REGISTRY_PATH; JsonLoad REGISTRY_PATH]
    | Some (StatError strerror) =>
        Ran (Raise (OSError strerror)) g [PathExists REGISTRY_PATH]
    | Some _ =>
        Ran (Raise JSONDecodeError) g
            [PathExists REGISTRY_PATH; JsonLoad REGISTRY_PATH]
    | None =>
        Ran (Raise (RuntimeError "registry.json no existe en /models")) g
            [PathExists REGISTRY_PATH]
    end.
Proof.
  unfold load_registry. py_unfold.
  destruct (d !! REGISTRY_PATH) as [[r|[v|]|obj| |e]|] eqn:Hd;
    cbn [negb outcome_of globals_of io_of app]; rewrite ?Hd; reflexivity.
Qed.

(** [load_model] is decided by what is at the model's path. *)
Lemma load_model_lookup name d g :
  load_model name d g =
    match d !! model_path_of name with
    | Some (JoblibFile pipe) =>
        Ran (Return pipe) g
            [PathExists (model_path_of name); JoblibLoad (model_path_of name)]
    | Some (StatError strerror) =>
        Ran (Raise (OSError strerror)) g [PathExists (model_path_of name)]
    | Some _ =>
        Ran (Raise UnpicklingError) g
            [PathExists (model_path_of name); JoblibLoad (model_path_of name)]
    | None =>
        Ran (Raise (HTTPException 404 ("Modelo no encontrado: " +:+ name))) g
            [PathExists (model_path_of name)]
    end.
Proof.
  unfold load_model. py_unfold.
  destruct (d !! model_path_of name) as [[r|v|obj| |e]|] eqn:Hd;
    cbn [negb outcome_of globals_of io_of app]; rewrite ?Hd; reflexivity.
Qed.

Lemma set_active_model_lookup name d g :
  set_active_model name d g =
    match d !! model_path_of name with
    | Some (JoblibFile pipe) =>
        Ran (Return tt) (switched g name pipe)
            [PathExists (model_path_of name); JoblibLoad (model_path_of name)]
    | Some (StatError strerror) =>
        Ran (Raise (OSError strerror)) g [PathExists (model_path_of name)]
    | Some _ =>
        Ran (Raise UnpicklingError) g
            [PathExists (model_path_of name); JoblibLoad (model_path_of name)]
    | None =>
        Ran (Raise (HTTPException 404 ("Modelo no encontrado: " +:+ name))) g
            [PathExists (model_path_of name)]
    end.
Proof.
  unfold set_active_model. unfold mbind at 1, py_bind, Py.bind.
  rewrite load_model_lookup.
  destruct (d !! model_path_of name) as [[r|v|obj| |e]|]; reflexivity.
Qed.

Section Helpers.

Context (d : disk) (g : globals).

Lemma load_registry_missing :
  d !! REGISTRY_PATH = None ->
  load_registry d g =
    Ran (Raise (RuntimeError "registry.json no existe en /models")) g
        [PathExists REGISTRY_PATH].
Proof. intros Hd. rewrite load_registry_lookup, Hd. reflexivity. Qed.

Lemma load_registry_json r :
  d !! REGISTRY_PATH = Some (JsonFile r) ->
  load_registry d g =
    Ran (Return (Some (Dict r))) g
        [PathExists REGISTRY_PATH; JsonLoad REGISTRY_PATH].
Proof. intros Hd. rewrite load_registry_lookup, Hd. reflexivity. Qed.

Lemma load_registry_globals : globals_of (load_registry d g) = g.
Proof.
  rewrite load_registry_lookup.
  destruct (d !! REGISTRY_PATH) as [[r|[v|]|obj| |e]|]; reflexivity.
Qed.

Lemma load_model_missing name :
  d !! model_path_of name = None ->
  load_model name d g =
    Ran (Raise (HTTPException 404 ("Modelo no encontrado: " +:+ name))) g
        [PathExists (model_path_of name)].
Proof. intros Hd. rewrite load_model_lookup, Hd. reflexivity. Qed.

Lemma load_model_joblib name pipe :
  artifact_loads d name pipe ->
  load_model name d g =
    Ran (Return pipe) g
        [PathExists (model_path_of name); JoblibLoad (model_path_of name)].
Proof. intros Hd. red in Hd. rewrite load_model_lookup, Hd. reflexivity. Qed.

Lemma load_model_globals name : globals_of (load_model name d g) = g.
Proof.
  rewrite load_model_lookup.
  destruct (d !! model_path_of name) as [[r|v|obj| |e]|]; reflexivity.
Qed.

(** A load that returns found a joblib file at the model's path. *)
Lemma load_model_returns name pipe :
  outcome_of (load_model name d g) = Return pipe ->
  artifact_loads d name pipe.
Proof.
  unfold artifact_loads. rewrite load_model_lookup.
  destruct (d !! model_path_of name) as [[r|v|obj| |e]|]; cbn; congruence.
Qed.

Lemma set_active_model_loaded name pipe :
  artifact_loads d name pipe ->
  set_active_model name d g =
    Ran (Return tt) (switched g name pipe)
        [PathExists (model_path_of name); JoblibLoad (model_path_of name)].
Proof. intros Hd. red in Hd. rewrite set_active_model_lookup, Hd. reflexivity. Qed.

Lemma set_active_model_missing name :
  d !! model_path_of name = None ->
  set_active_model name d g =
    Ran (Raise (HTTPException 404 ("Modelo no encontrado: " +:+ name))) g
        [PathExists (model_path_of name)].
Proof. intros Hd. rewrite set_active_model_lookup, Hd. reflexivity. Qed.

(** [set_active_model] either raises with the globals as they were, or
    returns with name and pipeline both replaced. *)
Lemma set_active_model_cases name :
  (∃ e, outcome_of (set_active_model name d g) = Raise e ∧
        globals_of (set_active_model name d g) = g) ∨
  (∃ pipe, artifact_loads d name pipe ∧
        outcome_of (set_active_model name d g) = Return tt ∧
        globals_of (set_active_model name d g) = switched g name pipe).
Proof.
  unfold artifact_loads. rewrite set_active_model_lookup.
  destruct (d !! model_path_of name) as [[r|v|obj| |e]|]; cbn; eauto 6.
Qed.

Lemma registry_dict_some r :
  REGISTRY g = Some (Dict r) -> registry_dict d g = Ran (Return r) g [].
Proof. intros Hr. unfold registry_dict. py_unfold. rewrite Hr. reflexivity. Qed.

(** [REGISTRY.get] on a global that holds no dict. *)
Lemma registry_dict_raises :
  (∀ r, REGISTRY g ≠ Some (Dict r)) ->
  ∃ e, registry_dict d g = Ran (Raise e) g [].
Proof.
  intros Hr. unfold registry_dict. py_unfold.
  destruct (REGISTRY g) as [[r|v]|]; [destruct (Hr r); reflexivity|..]; eauto.
Qed.

Lemma select_model_no_registry req :
  REGISTRY g = None ->
  select_model req d g =
    Ran (Raise (AttributeError "'NoneType' object has no attribute 'get'")) g [].
Proof.
  intros Hr. unfold select_model, registry_dict. py_unfold. rewrite Hr.
  reflexivity.
Qed.

Lemma select_model_not_a_dict req :
  (∀ r, REGISTRY g ≠ Some (Dict r)) ->
  ∃ e, select_model req d g = Ran (Raise e) g [].
Proof.
  intros Hr. destruct (registry_dict_raises Hr) as [e He].
  exists e. unfold select_model. apply bind_raise, He.
Qed.

Lemma select_model_unlisted r req :
  REGISTRY g = Some (Dict r) ->
  model_name req ∉ get_available_models r ->
  select_model req d g =
    Ran (Raise (HTTPException 404 ("Modelo no disponible: " +:+ model_name req)))
        g [].
Proof.
  intros Hr Hn. unfold select_model, registry_dict. py_unfold. rewrite Hr.
  cbn. rewrite bool_decide_false by exact Hn. reflexivity.
Qed.

(** For a listed name the endpoint is [set_active_model] followed by the
    response built from the global it has just assigned. *)
Lemma select_model_listed r req :
  REGISTRY g = Some (Dict r) ->
  model_name req ∈ get_available_models r ->
  select_model req d g =
    (set_active_model (model_name req);;
     name ← Py.read ACTIVE_MODEL_NAME;
     mret {| select_message := "Modelo activo actualizado";
             select_active_model := name |}) d g.
Proof.
  intros Hr Hin. unfold select_model.
  rewrite (bind_return _ _ _ _ _ _ _ (registry_dict_some _ Hr)).
  rewrite bool_decide_true by exact Hin. cbn [negb app].
  apply ran_eta.
Qed.

(** [select_model] on a state whose registry lists the name. *)
Lemma select_model_lookup r req :
  REGISTRY g = Some (Dict r) ->
  model_name req ∈ get_available_models r ->
  select_model req d g =
    let name := model_name req in
    match d !! model_path_of name with
    | Some (JoblibFile pipe) =>
        Ran (Return {| select_message := "Modelo activo actualizado";
                       select_active_model := Some name |})
            (switched g name pipe)
            [PathExists (model_path_of name); JoblibLoad (model_path_of name)]
    | Some (StatError strerror) =>
        Ran (Raise (OSError strerror)) g [PathExists (model_path_of name)]
    | Some _ =>
        Ran (Raise UnpicklingError) g
            [PathExists (model_path_of name); JoblibLoad (model_path_of name)]
    | None =>
        Ran (Raise (HTTPException 404 ("Modelo no encontrado: " +:+ name))) g
            [PathExists (model_path_of name)]
    end.
Proof.
  intros Hr Hin. rewrite (select_model_listed _ _ Hr Hin).
  unfold mbind at 1, py_bind, Py.bind. rewrite set_active_model_lookup.
  cbv zeta. destruct (d !! model_path_of (model_name req)) as [[r'|v|obj| |e]|];
    reflexivity.
Qed.

Lemma select_model_loaded r req pipe :
  REGISTRY g = Some (Dict r) ->
  model_name req ∈ get_available_models r ->
  artifact_loads d (model_name req) pipe ->
  select_model req d g =
    Ran (Return {| select_message := "Modelo activo actualizado";
                   select_active_model := Some (model_name req) |})
        (switched g (model_name req) pipe)
        [PathExists (model_path_of (model_name req));
         JoblibLoad (model_path_of (model_name req))].
Proof.
  intros Hr Hin Hd. red in Hd. rewrite (select_model_lookup _ _ Hr Hin).
  cbv zeta. rewrite Hd. reflexivity.
Qed.

Lemma select_model_missing r req :
  REGISTRY g = Some (Dict r) ->
  model_name req ∈ get_available_models r ->
  d !! model_path_of (model_name req) = None ->
  select_model req d g =
    Ran (Raise (HTTPException 404 ("Modelo no encontrado: " +:+ model_name req)))
        g [PathExists (model_path_of (model_name req))].
Proof.
  intros Hr Hin Hd. rewrite (select_model_lookup _ _ Hr Hin).
  cbv zeta. rewrite Hd. reflexivity.
Qed.

End Helpers.

(** The three shapes of the global [REGISTRY]. *)
Lemma REGISTRY_cases g :
  (∃ r, REGISTRY g = Some (Dict r)) ∨ (∀ r, REGISTRY g ≠ Some (Dict r)).
Proof. destruct (REGISTRY g) as [[r|v]|]; eauto; right; congruence. Qed.

(** After [load_registry] has returned the dict [r], startup stores it and
    goes on to the default model. *)
Lemma startup_event_loaded d g r :
  d !! REGISTRY_PATH = Some (JsonFile r) ->
  startup_event d g =
    let g' := Py.set_REGISTRY (Some (Dict r)) g in
    let rest :=
      match default_model r with
      | None => Py.raise (RuntimeError "registry.json no tiene 'default_model'")
      | Some default_model => set_active_model default_model
      end d g' in
    Ran (outcome_of rest) (globals_of rest)
        ([PathExists REGISTRY_PATH; JsonLoad REGISTRY_PATH] ++ io_of rest).
Proof.
  intros Hd. unfold startup_event.
  rewrite (bind_return _ _ _ _ _ _ _ (load_registry_json d g r Hd)).
  cbv zeta. unfold mbind at 1, py_bind, Py.bind, Py.assign.
  cbn [outcome_of globals_of io_of app].
  rewrite (bind_return _ _ _ _ _ _ _
             (registry_dict_some d (Py.set_REGISTRY (Some (Dict r)) g) r eq_refl)).
  cbn [app]. reflexivity.
Qed.

(** After [load_registry] has returned something that is not a dict,
    startup stores it and fails on [.get]. *)
Lemma startup_event_non_object d g v :
  d !! REGISTRY_PATH = Some (JsonNonObject v) ->
  startup_event d g =
    Ran (Raise (match v with
                | Some v => no_attribute_get (type_name v)
                | None => AttributeError "'NoneType' object has no attribute 'get'"
                end))
        (Py.set_REGISTRY (NonDict <$> v) g)
        [PathExists REGISTRY_PATH; JsonLoad REGISTRY_PATH].
Proof.
  intros Hd. unfold startup_event.
  unfold mbind at 1, py_bind, Py.bind. rewrite load_registry_lookup, Hd.
  destruct v as [v|]; reflexivity.
Qed.

Lemma startup_event_no_registry_file d g :
  d !! REGISTRY_PATH = None ->
  startup_event d g =
    Ran (Raise (RuntimeError "registry.json no existe en /models")) g
        [PathExists REGISTRY_PATH].
Proof.
  intros Hd. apply bind_raise, load_registry_missing, Hd.
Qed.

Lemma startup_event_no_default d g r :
  d !! REGISTRY_PATH = Some (JsonFile r) ->
  default_model r = None ->
  startup_event d g =
    Ran (Raise (RuntimeError "registry.json no tiene 'default_model'"))
        (Py.set_REGISTRY (Some (Dict r)) g)
        [PathExists REGISTRY_PATH; JsonLoad REGISTRY_PATH].
Proof.
  intros Hd Hdm. rewrite (startup_event_loaded d g r Hd). rewrite Hdm.
  reflexivity.
Qed.

Lemma startup_event_default_loaded d g r name pipe :
  d !! REGISTRY_PATH = Some (JsonFile r) ->
  default_model r = Some name ->
  artifact_loads d name pipe ->
  startup_event d g =
    Ran (Return tt)
        {| ACTIVE_MODEL_NAME := Some name; ACTIVE_MODEL_PIPE := pipe;
           REGISTRY := Some (Dict r) |}
        [PathExists REGISTRY_PATH; JsonLoad REGISTRY_PATH;
         PathExists (model_path_of name); JoblibLoad (model_path_of name)].
Proof.
  intros Hd Hdm Hp. rewrite (startup_event_loaded d g r Hd). rewrite Hdm.
  cbv zeta. rewrite (set_active_model_loaded _ _ _ _ Hp). reflexivity.
Qed.

(** When nothing readable as JSON is at [REGISTRY_PATH], startup raises
    with the globals as they were. *)
Lemma startup_event_unreadable d g :
  (∀ r, d !! REGISTRY_PATH ≠ Some (JsonFile r)) ->
  (∀ v, d !! REGISTRY_PATH ≠ Some (JsonNonObject v)) ->
  ∃ e io, startup_event d g = Ran (Raise e) g io.
Proof.
  intros Hr Hv.
  destruct (d !! REGISTRY_PATH) as [[r|v|obj| |e]|] eqn:Hd;
    [destruct (Hr r); reflexivity|destruct (Hv v); reflexivity|..];
    do 2 eexists; unfold startup_event; apply bind_raise;
    rewrite load_registry_lookup, Hd; reflexivity.
Qed.

(** A startup that returns has read a descriptor with a [default_model]
    whose artifact was unpickled. *)
Lemma startup_event_returns d g :
  outcome_of (startup_event d g) = Return tt ->
  ∃ r name pipe,
    d !! REGISTRY_PATH = Some (JsonFile r) ∧ default_model r = Some name ∧
    artifact_loads d name pipe ∧
    globals_of (startup_event d g) =
      {| ACTIVE_MODEL_NAME := Some name; ACTIVE_MODEL_PIPE := pipe;
         REGISTRY := Some (Dict r) |}.
Proof.
  destruct (d !! REGISTRY_PATH) as [[r|v|obj| |e]|] eqn:Hd.
  - rewrite (startup_event_loaded d g r Hd).
    destruct (default_model r) as [name|] eqn:Hdm; cbv zeta.
    + cbn [outcome_of globals_of]. intros Hret.
      destruct (set_active_model_cases d (Py.set_REGISTRY (Some (Dict r)) g) name)
        as [(e & He & _)|(pipe & Hp & _ & Hg)]; [congruence|].
      exists r, name, pipe. rewrite Hg. repeat split; assumption.
    + discriminate.
  - rewrite (startup_event_non_object d g v Hd). discriminate.
  - destruct (startup_event_unreadable d g) as (e' & io & ->);
      [rewrite Hd; congruence..|]. discriminate.
  - destruct (startup_event_unreadable d g) as (e' & io & ->);
      [rewrite Hd; congruence..|]. discriminate.
  - destruct (startup_event_unreadable d g) as (e' & io & ->);
      [rewrite Hd; congruence..|]. discriminate.
  - rewrite (startup_event_no_registry_file d g Hd). discriminate.
Qed.

(** Startup raises with the globals as they were, or raises after it has
    assigned [REGISTRY] only, or returns after it has assigned [REGISTRY]
    and then name and pipeline together. *)
Lemma startup_event_cases d g :
  (∃ e io, startup_event d g = Ran (Raise e) g io) ∨
  (∃ e io v, startup_event d g = Ran (Raise e) (Py.set_REGISTRY v g) io) ∨
  (∃ r name pipe io,
     artifact_loads d name pipe ∧
     startup_event d g =
       Ran (Return tt) (switched (Py.set_REGISTRY (Some (Dict r)) g) name pipe) io).
Proof.
  destruct (d !! REGISTRY_PATH) as [[r|v|obj| |e]|] eqn:Hd.
  - rewrite (startup_event_loaded d g r Hd).
    destruct (default_model r) as [name|] eqn:Hdm; cbv zeta.
    + unfold artifact_loads. rewrite set_active_model_lookup.
      destruct (d !! model_path_of name) as [[r'|v|obj| |e]|] eqn:Hp;
        cbn [outcome_of globals_of io_of]; eauto 12.
    + right; left. do 3 eexists. reflexivity.
  - right; left. rewrite (startup_event_non_object d g v Hd). eauto.
  - left. apply startup_event_unreadable; rewrite Hd; congruence.
  - left. apply startup_event_unreadable; rewrite Hd; congruence.
  - left. apply startup_event_unreadable; rewrite Hd; congruence.
  - left. rewrite (startup_event_no_registry_file d g Hd). eauto.
Qed.

(** A switch that returns has validated the name and unpickled its
    artifact. *)
Lemma select_model_returns d g req resp :
  outcome_of (select_model req d g) = Return resp ->
  ∃ r pipe,
    REGISTRY g = Some (Dict r) ∧ model_name req ∈ get_available_models r ∧
    artifact_loads d (model_name req) pipe ∧
    globals_of (select_model req d g) = switched g (model_name req) pipe.
Proof.
  destruct (REGISTRY_cases g) as [[r Hr]|Hr].
  - destruct (decide (model_name req ∈ get_available_models r)) as [Hin|Hn].
    + rewrite (select_model_listed d g r req Hr Hin).
      destruct (set_active_model_cases d g (model_name req))
        as [(e & He & Hg)|(pipe & Hp & _ & _)].
      * unfold mbind at 1, py_bind, Py.bind. rewrite He. discriminate.
      * intros _. exists r, pipe.
        rewrite (bind_return _ _ _ _ _ _ _ (set_active_model_loaded d g _ _ Hp)).
        repeat split; assumption.
    + rewrite (select_model_unlisted d g r req Hr Hn). discriminate.
  - destruct (select_model_not_a_dict d g req Hr) as [e ->]. discriminate.
Qed.

(** ** Switching the active model *)

(** C1: for a name listed in [available_models] whose artifact file does
    not exist, [select_model] (and [set_active_model] under it) raises the
    load failure of [load_model], the 404 "Modelo no encontrado", and
    leaves both [ACTIVE_MODEL_NAME] and [ACTIVE_MODEL_PIPE] as they were:
    neither is assigned without the other. *)
Theorem switch_to_missing_artifact_keeps_active_model
    (d : disk) (g : globals) (r : registry) (name : string) :
  REGISTRY g = Some (Dict r) ->
  name ∈ get_available_models r ->
  d !! model_path_of name = None ->
  let endpoint := select_model {| model_name := name |} d g in
  let direct := set_active_model name d g in
  let failure := HTTPException 404 ("Modelo no encontrado: " +:+ name) in
  outcome_of (load_model name d g) = Raise failure ∧
  (outcome_of endpoint = Raise failure ∧
   ACTIVE_MODEL_NAME (globals_of endpoint) = ACTIVE_MODEL_NAME g ∧
   ACTIVE_MODEL_PIPE (globals_of endpoint) = ACTIVE_MODEL_PIPE g) ∧
  (outcome_of direct = Raise failure ∧
   ACTIVE_MODEL_NAME (globals_of direct) = ACTIVE_MODEL_NAME g ∧
   ACTIVE_MODEL_PIPE (globals_of direct) = ACTIVE_MODEL_PIPE g).
Proof.
  intros Hr Hin Hd; cbv zeta.
  rewrite (load_model_missing _ _ _ Hd).
  rewrite (select_model_missing d g r {| model_name := name |} Hr Hin Hd).
  rewrite (set_active_model_missing _ _ _ Hd).
  repeat split.
Qed.

Lemma switch_to_missing_artifact_keeps_active_model_witness :
  let endpoint := select_model {| model_name := "knn" |} Sample.models Sample.started in
  let direct := set_active_model "knn" Sample.models Sample.started in
  let failure := HTTPException 404 "Modelo no encontrado: knn" in
  outcome_of (load_model "knn" Sample.models Sample.started) = Raise failure ∧
  (outcome_of endpoint = Raise failure ∧
   ACTIVE_MODEL_NAME (globals_of endpoint) = Some "rf" ∧
   ACTIVE_MODEL_PIPE (globals_of endpoint) = Some Sample.rf) ∧
  (outcome_of direct = Raise failure ∧
   ACTIVE_MODEL_NAME (globals_of direct) = Some "rf" ∧
   ACTIVE_MODEL_PIPE (globals_of direct) = Some Sample.rf).
Proof.
  apply (switch_to_missing_artifact_keeps_active_model
           Sample.models Sample.started Sample.rf_svm "knn").
  - reflexivity.
  - apply (bool_decide_unpack ("knn" ∈ ["rf"; "svm"; "knn"])). vm_compute. exact I.
  - vm_compute. reflexivity.
Defined.

(** C2: for a name that [available_models] does not list, [select_model]
    raises the 404 "Modelo no disponible" with its detail string, leaves
    the active name and pipeline as they were, and touches neither the
    file system nor a pipeline: no artifact load is attempted. *)
Theorem select_unlisted_model_not_found
    (d : disk) (g : globals) (r : registry) (req : SelectModelRequest) :
  REGISTRY g = Some (Dict r) ->
  model_name req ∉ get_available_models r ->
  let endpoint := select_model req d g in
  outcome_of endpoint =
    Raise (HTTPException 404 ("Modelo no disponible: " +:+ model_name req)) ∧
  ACTIVE_MODEL_NAME (globals_of endpoint) = ACTIVE_MODEL_NAME g ∧
  ACTIVE_MODEL_PIPE (globals_of endpoint) = ACTIVE_MODEL_PIPE g ∧
  io_of endpoint = [].
Proof.
  intros Hr Hn; cbv zeta.
  rewrite (select_model_unlisted d g r req Hr Hn). repeat split.
Qed.

Lemma select_unlisted_model_not_found_witness :
  let endpoint := select_model {| model_name := "xgb" |} Sample.models Sample.started in
  outcome_of endpoint = Raise (HTTPException 404 "Modelo no disponible: xgb") ∧
  ACTIVE_MODEL_NAME (globals_of endpoint) = Some "rf" ∧
  ACTIVE_MODEL_PIPE (globals_of endpoint) = Some Sample.rf ∧
  io_of endpoint = [].
Proof.
  apply (select_unlisted_model_not_found
           Sample.models Sample.started Sample.rf_svm {| model_name := "xgb" |}).
  - reflexivity.
  - apply (bool_decide_unpack ("xgb" ∉ ["rf"; "svm"; "knn"])). vm_compute. exact I.
Defined.

(** ** The active name and the registry *)

(** A startup whose descriptor names a default model outside
    [available_models] completes and makes that model active: the claim
    that every model is listed when it becomes active fails at startup. *)
Lemma startup_activates_unlisted_default :
  let boot := startup_event Sample.models_unlisted_default initial_globals in
  outcome_of boot = Return tt ∧
  serving (globals_of boot) ∧
  REGISTRY (globals_of boot) = Some (Dict Sample.unlisted_default) ∧
  ACTIVE_MODEL_NAME (globals_of boot) = Some "xgb" ∧
  ("xgb" ∉ get_available_models Sample.unlisted_default) ∧
  (¬ active_name_listed (globals_of boot)).
Proof.
  assert (Hboot : startup_event Sample.models_unlisted_default initial_globals =
            Ran (Return tt)
              {| ACTIVE_MODEL_NAME := Some "xgb";
                 ACTIVE_MODEL_PIPE := Some Sample.rf;
                 REGISTRY := Some (Dict Sample.unlisted_default) |}
              [PathExists REGISTRY_PATH; JsonLoad REGISTRY_PATH;
               PathExists (model_path_of "xgb"); JoblibLoad (model_path_of "xgb")]).
  { apply (startup_event_default_loaded _ _ Sample.unlisted_default "xgb"
             (Some Sample.rf)); vm_compute; reflexivity. }
  assert (Hxgb : "xgb" ∉ get_available_models Sample.unlisted_default).
  { apply (bool_decide_unpack ("xgb" ∉ ["rf"])). vm_compute. exact I. }
  cbv zeta. split; [rewrite Hboot; reflexivity|].
  split; [apply serving_startup; rewrite Hboot; reflexivity|].
  rewrite Hboot. cbn [globals_of REGISTRY ACTIVE_MODEL_NAME].
  repeat split; try assumption.
  intros (r & name & Hr & Hname & Hin). cbn in Hr, Hname.
  injection Hr as <-. injection Hname as <-. exact (Hxgb Hin).
Qed.

(** The registry global never changes once startup has stored it. *)
Lemma select_model_REGISTRY d g req :
  REGISTRY (globals_of (select_model req d g)) = REGISTRY g.
Proof.
  destruct (REGISTRY_cases g) as [[r Hr]|Hr].
  - destruct (decide (model_name req ∈ get_available_models r)) as [Hin|Hn].
    + rewrite (select_model_lookup d g r req Hr Hin). cbv zeta.
      destruct (d !! model_path_of (model_name req)) as [[r'|v|obj| |e]|];
        reflexivity.
    + rewrite (select_model_unlisted d g r req Hr Hn). reflexivity.
  - destruct (select_model_not_a_dict d g req Hr) as [e ->]. reflexivity.
Qed.

(** C3, amended: a model that becomes active through [select_model] is
    listed in [available_models]; startup activates [default_model]
    without looking at [available_models].  So in every state reached by
    startup followed by successful switches the active name is listed or
    is the registry's [default_model], and every further successful switch
    leaves a listed name active. *)
Theorem active_name_listed_or_default_when_serving (g : globals) :
  serving g ->
  active_name_listed_or_default g ∧
  ∀ d req resp,
    outcome_of (select_model req d g) = Return resp ->
    active_name_listed (globals_of (select_model req d g)).
Proof.
  intros Hs. split.
  - induction Hs as [d Hret|g d req resp Hs IH Hret].
    + destruct (startup_event_returns _ _ Hret) as (r & name & pipe & _ & Hdm & _ & Hg).
      rewrite Hg. exists r, name. cbn. auto.
    + destruct (select_model_returns _ _ _ _ Hret) as (r & pipe & Hr & Hin & _ & Hg).
      rewrite Hg. exists r, (model_name req). cbn. auto.
  - intros d req resp Hret.
    destruct (select_model_returns _ _ _ _ Hret) as (r & pipe & Hr & Hin & _ & Hg).
    rewrite Hg. exists r, (model_name req). cbn. auto.
Qed.

Lemma active_name_listed_or_default_when_serving_witness :
  serving Sample.started ∧
  active_name_listed_or_default Sample.started ∧
  active_name_listed
    (globals_of (select_model {| model_name := "svm" |} Sample.models Sample.started)).
Proof.
  assert (Hs : serving Sample.started).
  { change Sample.started
      with (globals_of (startup_event Sample.models initial_globals)).
    apply serving_startup. vm_compute. reflexivity. }
  split; [exact Hs|].
  destruct (active_name_listed_or_default_when_serving Sample.started Hs)
    as [Hinv Hswitch].
  split; [exact Hinv|].
  apply (Hswitch Sample.models {| model_name := "svm" |}
           {| select_message := "Modelo activo actualizado";
              select_active_model := Some "svm" |}).
  vm_compute. reflexivity.
Defined.

(** ** Loading the registry *)

(** On a descriptor that exists but has no [default_model],
    [load_registry] returns the descriptor: it raises nothing, so the
    claim that [load_registry] itself rejects such a descriptor fails. *)
Lemma load_registry_accepts_missing_default :
  Sample.models_no_default !! REGISTRY_PATH = Some (JsonFile Sample.no_default) ∧
  default_model Sample.no_default = None ∧
  outcome_of (load_registry Sample.models_no_default initial_globals) =
    Return (Some (Dict Sample.no_default)).
Proof. vm_compute. repeat split. Qed.

(** C4, amended: [load_registry] raises the configuration error
    (a [RuntimeError]) when the descriptor file does not exist.  When the
    descriptor exists but has no [default_model], [load_registry] returns
    it; the configuration error for the absent field is raised by
    [startup_event], right after it has stored the registry and before any
    artifact is looked up, with the active name and pipeline untouched. *)
Theorem registry_configuration_errors (d : disk) (g : globals) :
  (d !! REGISTRY_PATH = None ->
   outcome_of (load_registry d g) =
     Raise (RuntimeError "registry.json no existe en /models") ∧
   outcome_of (startup_event d g) =
     Raise (RuntimeError "registry.json no existe en /models") ∧
   globals_of (startup_event d g) = g) ∧
  (∀ r,
     d !! REGISTRY_PATH = Some (JsonFile r) ->
     default_model r = None ->
     outcome_of (load_registry d g) = Return (Some (Dict r)) ∧
     outcome_of (startup_event d g) =
       Raise (RuntimeError "registry.json no tiene 'default_model'") ∧
     io_of (startup_event d g) =
       [PathExists REGISTRY_PATH; JsonLoad REGISTRY_PATH] ∧
     REGISTRY (globals_of (startup_event d g)) = Some (Dict r) ∧
     ACTIVE_MODEL_NAME (globals_of (startup_event d g)) = ACTIVE_MODEL_NAME g ∧
     ACTIVE_MODEL_PIPE (globals_of (startup_event d g)) = ACTIVE_MODEL_PIPE g).
Proof.
  split.
  - intros Hd. rewrite (load_registry_missing d g Hd).
    rewrite (startup_event_no_registry_file d g Hd). repeat split.
  - intros r Hd Hdm. rewrite (load_registry_json d g r Hd).
    rewrite (startup_event_no_default d g r Hd Hdm). repeat split.
Qed.

Lemma registry_configuration_errors_witness :
  (outcome_of (load_registry Sample.empty_models initial_globals) =
     Raise (RuntimeError "registry.json no existe en /models") ∧
   outcome_of (startup_event Sample.empty_models initial_globals) =
     Raise (RuntimeError "registry.json no existe en /models") ∧
   globals_of (startup_event Sample.empty_models initial_globals) =
     initial_globals) ∧
  (outcome_of (load_registry Sample.models_no_default initial_globals) =
     Return (Some (Dict Sample.no_default)) ∧
   outcome_of (startup_event Sample.models_no_default initial_globals) =
     Raise (RuntimeError "registry.json no tiene 'default_model'") ∧
   io_of (startup_event Sample.models_no_default initial_globals) =
     [PathExists REGISTRY_PATH; JsonLoad REGISTRY_PATH] ∧
   REGISTRY (globals_of (startup_event Sample.models_no_default initial_globals)) =
     Some (Dict Sample.no_default) ∧
   ACTIVE_MODEL_NAME
     (globals_of (startup_event Sample.models_no_default initial_globals)) = None ∧
   ACTIVE_MODEL_PIPE
     (globals_of (startup_event Sample.models_no_default initial_globals)) = None).
Proof.
  split.
  - apply (proj1 (registry_configuration_errors Sample.empty_models initial_globals)).
    vm_compute. reflexivity.
  - apply (proj2 (registry_configuration_errors Sample.models_no_default initial_globals)
             Sample.no_default).
    + vm_compute. reflexivity.
    + reflexivity.
Defined.

(** ** Prediction *)

Lemma predict_no_model features d g :
  ACTIVE_MODEL_PIPE g = None ->
  predict features d g = Ran (Raise (HTTPException 500 "Modelo no cargado")) g [].
Proof.
  intros Hp. unfold predict. py_unfold. rewrite Hp. reflexivity.
Qed.

Lemma predict_with_model features d g pipe :
  ACTIVE_MODEL_PIPE g = Some pipe ->
  predict features d g =
    let df := pd_DataFrame [features_dict features] in
    Ran (match sk_predict pipe df with
         | Return (label :: _) =>
             Return {| prediction := label; model_used := ACTIVE_MODEL_NAME g |}
         | Return [] => Raise IndexError
         | Raise e => Raise e
         end) g [PredictCall df].
Proof.
  intros Hp. unfold predict, first_item. py_unfold. rewrite Hp. cbv zeta.
  destruct (sk_predict pipe (pd_DataFrame [features_dict features]))
    as [[|label rest]|e]; reflexivity.
Qed.

(** A startup that raises leaves the active name and pipeline as they
    were. *)
Lemma startup_event_raises_keeps_active d g e :
  outcome_of (startup_event d g) = Raise e ->
  ACTIVE_MODEL_NAME (globals_of (startup_event d g)) = ACTIVE_MODEL_NAME g ∧
  ACTIVE_MODEL_PIPE (globals_of (startup_event d g)) = ACTIVE_MODEL_PIPE g.
Proof.
  destruct (startup_event_cases d g)
    as [(e' & io & ->)|[(e' & io & v & ->)|(r & name & pipe & io & _ & ->)]];
    cbn; [split; reflexivity..|discriminate].
Qed.

(** After a startup that failed, every prediction request is answered
    with the HTTP 500. *)
Lemma predict_after_failed_startup features d d0 e :
  outcome_of (startup_event d0 initial_globals) = Raise e ->
  outcome_of (predict features d (globals_of (startup_event d0 initial_globals))) =
    Raise (HTTPException 500 "Modelo no cargado").
Proof.
  intros Hfail.
  destruct (startup_event_raises_keeps_active d0 initial_globals e Hfail)
    as [_ Hpipe].
  rewrite (predict_no_model features d _ Hpipe). reflexivity.
Qed.

(** C5: for every feature record, when no pipeline is active ([predict]
    tests [ACTIVE_MODEL_PIPE], which is [None] until a load has returned
    an object)
    the endpoint raises the HTTP 500 with detail "Modelo no cargado"; no
    pipeline is called and nothing is read from disk. *)
Theorem predict_without_model_is_server_error
    (features : PenguinFeatures) (d : disk) (g : globals) :
  ACTIVE_MODEL_PIPE g = None ->
  outcome_of (predict features d g) =
    Raise (HTTPException 500 "Modelo no cargado") ∧
  io_of (predict features d g) = [] ∧
  globals_of (predict features d g) = g.
Proof.
  intros Hp. rewrite (predict_no_model features d g Hp). repeat split.
Qed.

Lemma predict_without_model_is_server_error_witness :
  outcome_of (predict Sample.biscoe Sample.models initial_globals) =
    Raise (HTTPException 500 "Modelo no cargado") ∧
  io_of (predict Sample.biscoe Sample.models initial_globals) = [] ∧
  globals_of (predict Sample.biscoe Sample.models initial_globals) =
    initial_globals.
Proof.
  apply (predict_without_model_is_server_error
           Sample.biscoe Sample.models initial_globals).
  reflexivity.
Defined.

(** C6: for every feature record, when a pipeline is active, [predict]
    builds a table of one row whose columns are the declared field names
    in their order and whose cells are the record's values, calls the
    active pipeline's [predict] on that table and nothing else, and, when
    the pipeline gives back a sequence with a first element, returns that
    element as [prediction] and the current [ACTIVE_MODEL_NAME] as
    [model_used]. *)
Theorem predict_returns_first_label_and_active_name
    (features : PenguinFeatures) (d : disk) (g : globals) (pipe : Pipeline) :
  ACTIVE_MODEL_PIPE g = Some pipe ->
  let df := pd_DataFrame [features_dict features] in
  columns df =
    ["island"; "bill_length_mm"; "bill_depth_mm"; "flipper_length_mm";
     "body_mass_g"; "sex"; "year"] ∧
  rows df =
    [[PyStr (island features);
      of_optional_float (bill_length_mm features);
      of_optional_float (bill_depth_mm features);
      of_optional_float (flipper_length_mm features);
      of_optional_float (body_mass_g features);
      of_optional_str (sex features);
      PyInt (year features)]] ∧
  io_of (predict features d g) = [PredictCall df] ∧
  ∀ label rest,
    sk_predict pipe df = Return (label :: rest) ->
    outcome_of (predict features d g) =
      Return {| prediction := label; model_used := ACTIVE_MODEL_NAME g |}.
Proof.
  intros Hp. cbv zeta. rewrite (predict_with_model features d g pipe Hp).
  cbv zeta. cbn [outcome_of io_of].
  split; [reflexivity|]. split; [reflexivity|]. split; [reflexivity|].
  intros label rest Hpred. rewrite Hpred. reflexivity.
Qed.

Lemma predict_returns_first_label_and_active_name_witness :
  let df := pd_DataFrame [features_dict Sample.biscoe] in
  rows df = [[PyStr "Biscoe"; PyNone; PyNone; PyNone; PyNone; PyNone; PyInt 2008]] ∧
  io_of (predict Sample.biscoe Sample.models Sample.started) = [PredictCall df] ∧
  outcome_of (predict Sample.biscoe Sample.models Sample.started) =
    Return {| prediction := "Adelie"; model_used := Some "rf" |}.
Proof.
  destruct (predict_returns_first_label_and_active_name
              Sample.biscoe Sample.models Sample.started Sample.rf eq_refl)
    as (_ & Hrows & Hio & Hret).
  cbv zeta. split; [exact Hrows|]. split; [exact Hio|].
  apply (Hret "Adelie" []). reflexivity.
Defined.

(** ** Switching there and back, and startup *)

(** C7: when the loads of [a] and [b] succeed, [set_active_model a],
    [set_active_model b], [set_active_model a] in a row all return and
    leave the same active name as a single [set_active_model a], namely
    [a]; on one disk the whole globals are the same.  The same holds
    through the [select_model] endpoint for listed names. *)
Theorem switch_there_and_back_same_active_name
    (d : disk) (g : globals) (a b : string) (pipe_a pipe_b : option Pipeline) :
  artifact_loads d a pipe_a ->
  artifact_loads d b pipe_b ->
  let once := set_active_model a d g in
  let thrice :=
    (set_active_model a;; set_active_model b;; set_active_model a) d g in
  (outcome_of once = Return tt ∧ outcome_of thrice = Return tt ∧
   ACTIVE_MODEL_NAME (globals_of once) = Some a ∧
   ACTIVE_MODEL_NAME (globals_of thrice) = ACTIVE_MODEL_NAME (globals_of once) ∧
   globals_of thrice = globals_of once) ∧
  ∀ r,
    REGISTRY g = Some (Dict r) ->
    a ∈ get_available_models r ->
    b ∈ get_available_models r ->
    let once := select_model {| model_name := a |} d g in
    let thrice :=
      (select_model {| model_name := a |};;
       select_model {| model_name := b |};;
       select_model {| model_name := a |}) d g in
    outcome_of thrice = outcome_of once ∧
    ACTIVE_MODEL_NAME (globals_of once) = Some a ∧
    ACTIVE_MODEL_NAME (globals_of thrice) = ACTIVE_MODEL_NAME (globals_of once).
Proof.
  intros Ha Hb. cbv zeta. split.
  - rewrite (set_active_model_loaded d g a pipe_a Ha).
    rewrite (bind_return _ _ _ _ _ _ _ (set_active_model_loaded d g a pipe_a Ha)).
    rewrite (bind_return _ _ _ _ _ _ _
               (set_active_model_loaded d (switched g a pipe_a) b pipe_b Hb)).
    rewrite (set_active_model_loaded d _ a pipe_a Ha).
    cbn. repeat split.
  - intros r Hr Hina Hinb.
    rewrite (select_model_loaded d g r {| model_name := a |} pipe_a Hr Hina Ha).
    rewrite (bind_return _ _ _ _ _ _ _
               (select_model_loaded d g r {| model_name := a |} pipe_a Hr Hina Ha)).
    rewrite (bind_return _ _ _ _ _ _ _
               (select_model_loaded d (switched g a pipe_a) r
                  {| model_name := b |} pipe_b Hr Hinb Hb)).
    cbn [model_name].
    rewrite (select_model_loaded d (switched (switched g a pipe_a) b pipe_b) r
               {| model_name := a |} pipe_a Hr Hina Ha).
    cbn. repeat split.
Qed.

Lemma switch_there_and_back_same_active_name_witness :
  (let once := set_active_model "rf" Sample.models Sample.started in
   let thrice :=
     (set_active_model "rf";; set_active_model "svm";; set_active_model "rf")
       Sample.models Sample.started in
   outcome_of once = Return tt ∧ outcome_of thrice = Return tt ∧
   ACTIVE_MODEL_NAME (globals_of once) = Some "rf" ∧
   ACTIVE_MODEL_NAME (globals_of thrice) = ACTIVE_MODEL_NAME (globals_of once) ∧
   globals_of thrice = globals_of once) ∧
  (let once := select_model {| model_name := "rf" |} Sample.models Sample.started in
   let thrice :=
     (select_model {| model_name := "rf" |};;
      select_model {| model_name := "svm" |};;
      select_model {| model_name := "rf" |}) Sample.models Sample.started in
   outcome_of thrice = outcome_of once ∧
   ACTIVE_MODEL_NAME (globals_of once) = Some "rf" ∧
   ACTIVE_MODEL_NAME (globals_of thrice) = ACTIVE_MODEL_NAME (globals_of once)).
Proof.
  destruct (switch_there_and_back_same_active_name
              Sample.models Sample.started "rf" "svm"
              (Some Sample.rf) (Some Sample.svm))
    as [Hdirect Hendpoint].
  - vm_compute. reflexivity.
  - vm_compute. reflexivity.
  - split; [exact Hdirect|].
    apply (Hendpoint Sample.rf_svm).
    + reflexivity.
    + apply (bool_decide_unpack ("rf" ∈ ["rf"; "svm"; "knn"])). vm_compute. exact I.
    + apply (bool_decide_unpack ("svm" ∈ ["rf"; "svm"; "knn"])). vm_compute. exact I.
Defined.

(** C8: for a registry with a [default_model] whose artifact loads,
    startup ([load_registry], then [set_active_model] on the default
    model) returns with [ACTIVE_MODEL_NAME] equal to [default_model], the
    loaded pipeline active and the registry stored; the root endpoint then
    reports that name. *)
Theorem startup_activates_default_model
    (d : disk) (g : globals) (r : registry) (name : string) (pipe : Pipeline) :
  d !! REGISTRY_PATH = Some (JsonFile r) ->
  default_model r = Some name ->
  artifact_loads d name (Some pipe) ->
  let boot := startup_event d g in
  let composed := (load_registry;; set_active_model name) d g in
  outcome_of (load_registry d g) = Return (Some (Dict r)) ∧
  outcome_of composed = Return tt ∧
  ACTIVE_MODEL_NAME (globals_of composed) = default_model r ∧
  outcome_of boot = Return tt ∧
  ACTIVE_MODEL_NAME (globals_of boot) = default_model r ∧
  ACTIVE_MODEL_PIPE (globals_of boot) = Some pipe ∧
  REGISTRY (globals_of boot) = Some (Dict r) ∧
  outcome_of (home d (globals_of boot)) =
    Return {| home_message := "API Penguins funcionando";
              home_active_model := default_model r |}.
Proof.
  intros Hd Hdm Hp. cbv zeta.
  rewrite (load_registry_json d g r Hd).
  rewrite (bind_return _ _ _ _ _ _ _ (load_registry_json d g r Hd)).
  rewrite (set_active_model_loaded d g name (Some pipe) Hp).
  rewrite (startup_event_default_loaded d g r name (Some pipe) Hd Hdm Hp).
  rewrite Hdm. cbn. repeat split.
Qed.

Lemma startup_activates_default_model_witness :
  let boot := startup_event Sample.models initial_globals in
  outcome_of boot = Return tt ∧
  ACTIVE_MODEL_NAME (globals_of boot) = Some "rf" ∧
  ACTIVE_MODEL_PIPE (globals_of boot) = Some Sample.rf ∧
  REGISTRY (globals_of boot) = Some (Dict Sample.rf_svm).
Proof.
  destruct (startup_activates_default_model
              Sample.models initial_globals Sample.rf_svm "rf" Sample.rf)
    as (_ & _ & _ & Hret & Hname & Hpipe & Hreg & _).
  - vm_compute. reflexivity.
  - reflexivity.
  - vm_compute. reflexivity.
  - cbv zeta. repeat split; assumption.
Defined.

(** ** Invariants of the globals *)

Lemma home_globals d g : globals_of (home d g) = g.
Proof. reflexivity. Qed.

Lemma list_models_globals d g : globals_of (list_models d g) = g.
Proof.
  unfold list_models, registry_dict. py_unfold.
  destruct (REGISTRY g) as [[r|v]|]; reflexivity.
Qed.

Lemma predict_globals features d g : globals_of (predict features d g) = g.
Proof.
  destruct (ACTIVE_MODEL_PIPE g) as [pipe|] eqn:Hp.
  - rewrite (predict_with_model features d g pipe Hp). reflexivity.
  - rewrite (predict_no_model features d g Hp). reflexivity.
Qed.

(** [predict] does not look at the disk. *)
Lemma predict_disk features d d' g : predict features d g = predict features d' g.
Proof.
  destruct (ACTIVE_MODEL_PIPE g) as [pipe|] eqn:Hp.
  - rewrite !(predict_with_model features _ g pipe Hp). reflexivity.
  - rewrite !(predict_no_model features _ g Hp). reflexivity.
Qed.

(** A switch leaves the globals as they were or replaces name and pipeline
    together, the pipeline by what was unpickled from the artifact. *)
Lemma select_model_globals_loaded d g req :
  globals_of (select_model req d g) = g ∨
  ∃ pipe, artifact_loads d (model_name req) pipe ∧
          globals_of (select_model req d g) = switched g (model_name req) pipe.
Proof.
  destruct (REGISTRY_cases g) as [[r Hr]|Hr].
  - destruct (decide (model_name req ∈ get_available_models r)) as [Hin|Hn].
    + unfold artifact_loads.
      rewrite (select_model_lookup d g r req Hr Hin). cbv zeta.
      destruct (d !! model_path_of (model_name req)) as [[r'|v|obj| |e]|];
        cbn [globals_of]; eauto.
    + left. rewrite (select_model_unlisted d g r req Hr Hn). reflexivity.
  - left. destruct (select_model_not_a_dict d g req Hr) as [e ->]. reflexivity.
Qed.

Lemma select_model_globals_cases d g req :
  globals_of (select_model req d g) = g ∨
  ∃ pipe, globals_of (select_model req d g) = switched g (model_name req) pipe.
Proof.
  destruct (select_model_globals_loaded d g req) as [Hg|(pipe & _ & Hg)]; eauto.
Qed.

(** Startup leaves the globals as they were, or assigns [REGISTRY] only,
    or assigns [REGISTRY] and replaces name and pipeline together. *)
Lemma startup_event_globals_cases d g :
  globals_of (startup_event d g) = g ∨
  (∃ v, globals_of (startup_event d g) = Py.set_REGISTRY v g) ∨
  (∃ r name pipe,
     artifact_loads d name pipe ∧
     globals_of (startup_event d g) =
       switched (Py.set_REGISTRY (Some (Dict r)) g) name pipe).
Proof.
  destruct (startup_event_cases d g)
    as [(e & io & ->)|[(e & io & v & ->)|(r & name & pipe & io & Hp & ->)]];
    cbn [globals_of]; eauto 8.
Qed.

(** Every call keeps a pipeline from being active without a name. *)
Lemma pipe_has_name_call c d g :
  pipe_has_name g -> pipe_has_name (globals_after c d g).
Proof.
  intros Hg. destruct c as [| | |req|features]; cbn [globals_after].
  - destruct (startup_event_globals_cases d g)
      as [->|[(v & ->)|(r & name & pipe & _ & ->)]];
      [exact Hg|exact Hg|intros H; discriminate H].
  - rewrite home_globals. exact Hg.
  - rewrite list_models_globals. exact Hg.
  - destruct (select_model_globals_cases d g req) as [->|(pipe & ->)];
      [exact Hg|intros H; discriminate H].
  - rewrite predict_globals. exact Hg.
Qed.

(** On a disk where no artifact holds a pickled [None], every call keeps
    name and pipeline both [None] or both set. *)
Lemma name_and_pipe_agree_call c d g :
  no_none_artifact d ->
  name_and_pipe_agree g -> name_and_pipe_agree (globals_after c d g).
Proof.
  intros Hd Hg. destruct c as [| | |req|features]; cbn [globals_after].
  - destruct (startup_event_globals_cases d g)
      as [->|[(v & ->)|(r & name & [pipe|] & Hp & ->)]];
      [exact Hg|exact Hg|split; discriminate|destruct (Hd _ Hp)].
  - rewrite home_globals. exact Hg.
  - rewrite list_models_globals. exact Hg.
  - destruct (select_model_globals_loaded d g req) as [->|([pipe|] & Hp & ->)];
      [exact Hg|split; discriminate|destruct (Hd _ Hp)].
  - rewrite predict_globals. exact Hg.
Qed.

(** An artifact with [None] pickled in it loads without error: startup
    returns, and leaves the name of the default model active with no
    pipeline behind it.  The two globals are then not both [None] or both
    set, and [predict] answers with its 500. *)
Lemma none_artifact_sets_name_without_pipe :
  let boot := startup_event Sample.models_none_artifact initial_globals in
  outcome_of boot = Return tt ∧
  reachable (globals_of boot) ∧
  ACTIVE_MODEL_NAME (globals_of boot) = Some "rf" ∧
  ACTIVE_MODEL_PIPE (globals_of boot) = None ∧
  (¬ name_and_pipe_agree (globals_of boot)) ∧
  outcome_of (predict Sample.biscoe Sample.models_none_artifact (globals_of boot)) =
    Raise (HTTPException 500 "Modelo no cargado").
Proof.
  assert (Hboot : startup_event Sample.models_none_artifact initial_globals =
            Ran (Return tt)
              {| ACTIVE_MODEL_NAME := Some "rf"; ACTIVE_MODEL_PIPE := None;
                 REGISTRY := Some (Dict Sample.rf_svm) |}
              [PathExists REGISTRY_PATH; JsonLoad REGISTRY_PATH;
               PathExists (model_path_of "rf"); JoblibLoad (model_path_of "rf")]).
  { apply (startup_event_default_loaded _ _ Sample.rf_svm "rf" None);
      vm_compute; reflexivity. }
  cbv zeta. split; [rewrite Hboot; reflexivity|].
  split.
  { change (globals_of (startup_event Sample.models_none_artifact initial_globals))
      with (globals_after CallStartup Sample.models_none_artifact initial_globals).
    apply reachable_call, reachable_initial. }
  rewrite Hboot. cbn [globals_of ACTIVE_MODEL_NAME ACTIVE_MODEL_PIPE].
  split; [reflexivity|]. split; [reflexivity|]. split; [|reflexivity].
  intros [_ Hnone]. cbn in Hnone. specialize (Hnone eq_refl). discriminate.
Qed.

(** C9, amended: both globals start as [None], and in every state reached
    by any sequence of startup and endpoint calls (returning or raising)
    [ACTIVE_MODEL_NAME] is [None] only if [ACTIVE_MODEL_PIPE] is [None]: a
    pipeline is never active without a name.  The converse holds as long
    as no artifact on the disks of the run has [None] pickled in it; such
    an artifact loads and leaves the name set with the pipeline [None].
    Either way a prediction that is returned carries a [model_used] that
    is a name, the active one, never [None]. *)
Theorem active_pipe_has_active_name (g : globals) :
  reachable g ->
  (ACTIVE_MODEL_NAME initial_globals = None ∧
   ACTIVE_MODEL_PIPE initial_globals = None) ∧
  (ACTIVE_MODEL_NAME g = None -> ACTIVE_MODEL_PIPE g = None) ∧
  (reachable_without_none g ->
   (ACTIVE_MODEL_NAME g = None ↔ ACTIVE_MODEL_PIPE g = None)) ∧
  ∀ features d resp,
    outcome_of (predict features d g) = Return resp ->
    ∃ name, model_used resp = Some name ∧ ACTIVE_MODEL_NAME g = Some name.
Proof.
  intros Hreach. split; [split; reflexivity|].
  assert (Hname : pipe_has_name g).
  { induction Hreach as [|g c d _ IH].
    - intros _. reflexivity.
    - apply pipe_has_name_call, IH. }
  split; [exact Hname|]. split.
  { clear Hreach Hname. intros Hrun. induction Hrun as [|g c d _ IH Hd].
    - split; reflexivity.
    - apply (name_and_pipe_agree_call c d g Hd IH). }
  intros features d resp.
  destruct (ACTIVE_MODEL_PIPE g) as [pipe|] eqn:Hp.
  - rewrite (predict_with_model features d g pipe Hp). cbv zeta.
    cbn [outcome_of].
    destruct (ACTIVE_MODEL_NAME g) as [name|] eqn:Hactive.
    + destruct (sk_predict pipe _) as [[|label rest]|e]; try discriminate.
      intros [= <-]. exists name. split; reflexivity.
    + unfold pipe_has_name in Hname. rewrite Hp, Hactive in Hname.
      specialize (Hname eq_refl). discriminate.
  - rewrite (predict_no_model features d g Hp). discriminate.
Qed.

Lemma active_pipe_has_active_name_witness :
  reachable Sample.started ∧
  (ACTIVE_MODEL_NAME Sample.started = None -> ACTIVE_MODEL_PIPE Sample.started = None) ∧
  (ACTIVE_MODEL_NAME Sample.started = None ↔ ACTIVE_MODEL_PIPE Sample.started = None) ∧
  ∃ name,
    model_used {| prediction := "Adelie"; model_used := Some "rf" |} = Some name ∧
    ACTIVE_MODEL_NAME Sample.started = Some name.
Proof.
  assert (Hreach : reachable Sample.started).
  { change Sample.started
      with (globals_after CallStartup Sample.models initial_globals).
    apply reachable_call, reachable_initial. }
  split; [exact Hreach|].
  destruct (active_pipe_has_active_name Sample.started Hreach)
    as (_ & Hname & Hagree & Hused).
  split; [exact Hname|]. split.
  - apply Hagree.
    change Sample.started
      with (globals_after CallStartup Sample.models initial_globals).
    apply reachable_without_none_call; [apply reachable_without_none_initial|].
    intros path Hp. unfold Sample.models in Hp.
    repeat (apply lookup_insert_Some in Hp as [[_ Hp]|[_ Hp]]; [discriminate Hp|]).
    rewrite lookup_empty in Hp. discriminate Hp.
  - apply (Hused Sample.biscoe Sample.models). reflexivity.
Defined.

(** C10: no endpoint assigns [REGISTRY].  [select_model] leaves it as it
    was whether it returns or raises (it changes the active name and
    pipeline only, or nothing); [predict], [home] and [list_models] leave
    all three globals as they were, so a second [predict] on the same
    record, on any disk, runs exactly as the first. *)
Theorem endpoints_leave_registry_unchanged :
  (∀ req d g, REGISTRY (globals_of (select_model req d g)) = REGISTRY g) ∧
  (∀ req d g,
     globals_of (select_model req d g) = g ∨
     ∃ pipe, globals_of (select_model req d g) = switched g (model_name req) pipe) ∧
  (∀ features d g, globals_of (predict features d g) = g) ∧
  (∀ features d d' g,
     predict features d' (globals_of (predict features d g)) = predict features d g) ∧
  (∀ d g, globals_of (home d g) = g) ∧
  (∀ d g, globals_of (list_models d g) = g).
Proof.
  split; [intros; apply select_model_REGISTRY|].
  split; [intros; apply select_model_globals_cases|].
  split; [intros; apply predict_globals|].
  split; [|split; intros; [apply home_globals|apply list_models_globals]].
  intros features d d' g. rewrite predict_globals. apply predict_disk.
Qed.

(** * Further properties of the module *)

(** ** The switch endpoint, outcome by outcome *)

(** X2: [select_model] returns exactly when the global [REGISTRY] holds a
    dict, the dict lists the requested name and [joblib.load] unpickles
    the file at the model's path.  It then answers with the requested name
    as [active_model] and has made that name and what was unpickled (an
    object or [None]) active, with [REGISTRY] as it was. *)
Theorem select_model_returns_iff
    (d : disk) (g : globals) (req : SelectModelRequest) (resp : SelectModelResponse) :
  outcome_of (select_model req d g) = Return resp
  ↔ ∃ r pipe,
      REGISTRY g = Some (Dict r) ∧
      model_name req ∈ get_available_models r ∧
      artifact_loads d (model_name req) pipe ∧
      resp = {| select_message := "Modelo activo actualizado";
                select_active_model := Some (model_name req) |} ∧
      globals_of (select_model req d g) = switched g (model_name req) pipe.
Proof.
  split.
  - intros Hret.
    destruct (select_model_returns d g req resp Hret)
      as (r & pipe & Hr & Hin & Hp & Hg).
    exists r, pipe. repeat split; try assumption.
    rewrite (select_model_loaded d g r req pipe Hr Hin Hp) in Hret.
    cbn in Hret. congruence.
  - intros (r & pipe & Hr & Hin & Hp & -> & _).
    rewrite (select_model_loaded d g r req pipe Hr Hin Hp). reflexivity.
Qed.

Lemma select_model_returns_iff_witness :
  outcome_of (select_model {| model_name := "svm" |} Sample.models Sample.started) =
    Return {| select_message := "Modelo activo actualizado";
              select_active_model := Some "svm" |} ∧
  ∃ r pipe,
    REGISTRY Sample.started = Some (Dict r) ∧
    "svm" ∈ get_available_models r ∧
    artifact_loads Sample.models "svm" pipe.
Proof.
  assert (Hret : outcome_of (select_model {| model_name := "svm" |}
                               Sample.models Sample.started) =
                 Return {| select_message := "Modelo activo actualizado";
                           select_active_model := Some "svm" |}).
  { apply (proj2 (select_model_returns_iff Sample.models Sample.started
                    {| model_name := "svm" |} _)).
    exists Sample.rf_svm, (Some Sample.svm). split; [reflexivity|].
    split; [apply (bool_decide_unpack ("svm" ∈ ["rf"; "svm"; "knn"]));
            vm_compute; exact I|].
    split; [vm_compute; reflexivity|].
    split; [reflexivity|]. vm_compute. reflexivity. }
  split; [exact Hret|].
  destruct (proj1 (select_model_returns_iff Sample.models Sample.started
                     {| model_name := "svm" |} _) Hret)
    as (r & pipe & Hr & Hin & Hp & _).
  exists r, pipe. repeat split; assumption.
Defined.

(** X3: switching is all or nothing for every failure, not only the two
    404s: whenever [select_model] or [set_active_model] raises, for
    whatever reason, all three globals are exactly as they were before the
    call. *)
Theorem failed_switch_keeps_globals
    (d : disk) (g : globals) (req : SelectModelRequest) :
  (∀ e, outcome_of (select_model req d g) = Raise e ->
        globals_of (select_model req d g) = g) ∧
  (∀ e, outcome_of (set_active_model (model_name req) d g) = Raise e ->
        globals_of (set_active_model (model_name req) d g) = g).
Proof.
  split.
  - intros e. destruct (REGISTRY_cases g) as [[r Hr]|Hr].
    + destruct (decide (model_name req ∈ get_available_models r)) as [Hin|Hn].
      * rewrite (select_model_lookup d g r req Hr Hin). cbv zeta.
        destruct (d !! model_path_of (model_name req)) as [[r'|v|obj| |e']|];
          cbn; intros H; try discriminate; reflexivity.
      * rewrite (select_model_unlisted d g r req Hr Hn). reflexivity.
    + destruct (select_model_not_a_dict d g req Hr) as [e' ->]. reflexivity.
  - intros e. rewrite set_active_model_lookup.
    destruct (d !! model_path_of (model_name req)) as [[r'|v|obj| |e']|];
      cbn; intros H; try discriminate; reflexivity.
Qed.

Lemma failed_switch_keeps_globals_witness :
  globals_of (select_model {| model_name := "registry.json" |}
                Sample.models Sample.started) = Sample.started ∧
  globals_of (set_active_model "knn" Sample.models Sample.started) = Sample.started.
Proof.
  split.
  - apply (proj1 (failed_switch_keeps_globals Sample.models Sample.started
                    {| model_name := "registry.json" |})
             (HTTPException 404 "Modelo no disponible: registry.json")).
    vm_compute. reflexivity.
  - apply (proj2 (failed_switch_keeps_globals Sample.models Sample.started
                    {| model_name := "knn" |})
             (HTTPException 404 "Modelo no encontrado: knn")).
    vm_compute. reflexivity.
Defined.

(** X4: when the registry has no [available_models] key, the default of
    [dict.get] is the empty list, so [select_model] refuses every name
    with the 404 "Modelo no disponible", the active default model
    included, and never looks at the disk. *)
Theorem select_model_without_available_models
    (d : disk) (g : globals) (r : registry) (req : SelectModelRequest) :
  REGISTRY g = Some (Dict r) ->
  available_models r = None ->
  select_model req d g =
    Ran (Raise (HTTPException 404 ("Modelo no disponible: " +:+ model_name req)))
        g [].
Proof.
  intros Hr Hnone. apply (select_model_unlisted d g r req Hr).
  unfold get_available_models. rewrite Hnone. cbn. apply not_elem_of_nil.
Qed.

Lemma select_model_without_available_models_witness :
  let boot := startup_event Sample.models_no_available initial_globals in
  outcome_of boot = Return tt ∧
  ACTIVE_MODEL_NAME (globals_of boot) = Some "rf" ∧
  select_model {| model_name := "rf" |} Sample.models_no_available (globals_of boot) =
    Ran (Raise (HTTPException 404 "Modelo no disponible: rf")) (globals_of boot) [].
Proof.
  cbv zeta. split; [vm_compute; reflexivity|]. split; [vm_compute; reflexivity|].
  apply (select_model_without_available_models Sample.models_no_available
           (globals_of (startup_event Sample.models_no_available initial_globals))
           Sample.no_available {| model_name := "rf" |}).
  - vm_compute. reflexivity.
  - reflexivity.
Defined.

(** X5: before startup has stored a registry, [select_model] and
    [list_models] do not answer with an HTTP error of their own: both fail
    on [REGISTRY.get] with an [AttributeError], change nothing and read
    nothing, while [home] still returns and reports the active name. *)
Theorem endpoints_without_registry
    (d : disk) (g : globals) (req : SelectModelRequest) :
  REGISTRY g = None ->
  let failure := AttributeError "'NoneType' object has no attribute 'get'" in
  select_model req d g = Ran (Raise failure) g [] ∧
  list_models d g = Ran (Raise failure) g [] ∧
  home d g =
    Ran (Return {| home_message := "API Penguins funcionando";
                   home_active_model := ACTIVE_MODEL_NAME g |}) g [].
Proof.
  intros Hr. cbv zeta. split; [apply select_model_no_registry, Hr|].
  split; [|reflexivity].
  unfold list_models. apply bind_raise.
  unfold registry_dict. py_unfold. rewrite Hr. reflexivity.
Qed.

Lemma endpoints_without_registry_witness :
  let failure := AttributeError "'NoneType' object has no attribute 'get'" in
  select_model {| model_name := "rf" |} Sample.models initial_globals =
    Ran (Raise failure) initial_globals [] ∧
  list_models Sample.models initial_globals = Ran (Raise failure) initial_globals [] ∧
  home Sample.models initial_globals =
    Ran (Return {| home_message := "API Penguins funcionando";
                   home_active_model := None |}) initial_globals [].
Proof.
  apply (endpoints_without_registry Sample.models initial_globals
           {| model_name := "rf" |}).
  reflexivity.
Defined.

(** ** Startup, outcome by outcome *)

(** X6: [startup_event] returns exactly when [registry.json] holds a JSON
    object with a [default_model] and [joblib.load] unpickles the file at
    that model's path (to an object or to [None]); [available_models]
    plays no part. *)
Theorem startup_event_returns_iff (d : disk) (g : globals) :
  outcome_of (startup_event d g) = Return tt
  ↔ ∃ r name pipe,
      d !! REGISTRY_PATH = Some (JsonFile r) ∧
      default_model r = Some name ∧
      artifact_loads d name pipe.
Proof.
  split.
  - intros Hret.
    destruct (startup_event_returns d g Hret) as (r & name & pipe & Hd & Hdm & Hp & _).
    exists r, name, pipe. repeat split; assumption.
  - intros (r & name & pipe & Hd & Hdm & Hp).
    rewrite (startup_event_default_loaded d g r name pipe Hd Hdm Hp). reflexivity.
Qed.

Lemma startup_event_returns_iff_witness :
  outcome_of (startup_event Sample.models_no_available initial_globals) = Return tt ∧
  ∃ r name pipe,
    Sample.models !! REGISTRY_PATH = Some (JsonFile r) ∧
    default_model r = Some name ∧
    artifact_loads Sample.models name pipe.
Proof.
  split.
  - apply (proj2 (startup_event_returns_iff Sample.models_no_available initial_globals)).
    exists Sample.no_available, "rf", (Some Sample.rf).
    repeat split; vm_compute; reflexivity.
  - apply (proj1 (startup_event_returns_iff Sample.models initial_globals)).
    vm_compute. reflexivity.
Defined.

(** X7: when the descriptor names a default model whose artifact file is
    missing, startup fails with [load_model]'s HTTP 404 (not with a
    [RuntimeError]), after it has already stored the registry: the active
    name and pipeline are as before, [REGISTRY] holds the descriptor, and
    [list_models] on the state left behind answers from it. *)
Theorem startup_with_missing_default_artifact
    (d : disk) (g : globals) (r : registry) (name : string) :
  d !! REGISTRY_PATH = Some (JsonFile r) ->
  default_model r = Some name ->
  d !! model_path_of name = None ->
  let boot := startup_event d g in
  outcome_of boot =
    Raise (HTTPException 404 ("Modelo no encontrado: " +:+ name)) ∧
  globals_of boot = Py.set_REGISTRY (Some (Dict r)) g ∧
  io_of boot =
    [PathExists REGISTRY_PATH; JsonLoad REGISTRY_PATH;
     PathExists (model_path_of name)] ∧
  outcome_of (list_models d (globals_of boot)) =
    Return {| models_default_model := Some name;
              models_available_models := get_available_models r;
              models_active_model := ACTIVE_MODEL_NAME g |}.
Proof.
  intros Hd Hdm Hp. cbv zeta.
  rewrite (startup_event_loaded d g r Hd). rewrite Hdm. cbv zeta.
  rewrite (set_active_model_missing d _ name Hp).
  cbn [outcome_of globals_of io_of app].
  split; [reflexivity|]. split; [reflexivity|]. split; [reflexivity|].
  unfold list_models, registry_dict. py_unfold. cbn. rewrite Hdm. reflexivity.
Qed.

Lemma startup_with_missing_default_artifact_witness :
  let boot := startup_event Sample.models_without_rf initial_globals in
  outcome_of boot = Raise (HTTPException 404 "Modelo no encontrado: rf") ∧
  globals_of boot = Py.set_REGISTRY (Some (Dict Sample.rf_svm)) initial_globals ∧
  io_of boot =
    [PathExists REGISTRY_PATH; JsonLoad REGISTRY_PATH;
     PathExists (model_path_of "rf")] ∧
  outcome_of (list_models Sample.models_without_rf (globals_of boot)) =
    Return {| models_default_model := Some "rf";
              models_available_models := ["rf"; "svm"; "knn"];
              models_active_model := None |}.
Proof.
  apply (startup_with_missing_default_artifact
           Sample.models_without_rf initial_globals Sample.rf_svm "rf").
  - vm_compute. reflexivity.
  - reflexivity.
  - vm_compute. reflexivity.
Defined.

(** ** Prediction, edge cases and composition *)

(** X8: with a pipeline active, a pipeline whose [predict] gives an empty
    sequence makes the endpoint fail with [IndexError] on the [[0]], and an
    exception raised by the pipeline's [predict] comes out of the endpoint
    as it is; in both cases the pipeline was called once and the globals
    are untouched, so the model stays active. *)
Theorem predict_pipeline_failures
    (features : PenguinFeatures) (d : disk) (g : globals) (pipe : Pipeline) :
  ACTIVE_MODEL_PIPE g = Some pipe ->
  let df := pd_DataFrame [features_dict features] in
  (sk_predict pipe df = Return [] ->
   predict features d g = Ran (Raise IndexError) g [PredictCall df]) ∧
  (∀ e, sk_predict pipe df = Raise e ->
   predict features d g = Ran (Raise e) g [PredictCall df]).
Proof.
  intros Hp. cbv zeta. rewrite (predict_with_model features d g pipe Hp).
  cbv zeta. split.
  - intros ->. reflexivity.
  - intros e ->. reflexivity.
Qed.

Lemma predict_pipeline_failures_witness :
  let df := pd_DataFrame [features_dict Sample.biscoe] in
  predict Sample.biscoe Sample.models (switched Sample.started "svm" (Some Sample.silent)) =
    Ran (Raise IndexError) (switched Sample.started "svm" (Some Sample.silent))
        [PredictCall df] ∧
  predict Sample.biscoe Sample.models (switched Sample.started "svm" (Some Sample.broken)) =
    Ran (Raise (PipelineError "could not convert string to float"))
        (switched Sample.started "svm" (Some Sample.broken)) [PredictCall df].
Proof.
  cbv zeta. split.
  - apply (proj1 (predict_pipeline_failures Sample.biscoe Sample.models
                    (switched Sample.started "svm" (Some Sample.silent)) Sample.silent
                    eq_refl)).
    reflexivity.
  - apply (proj2 (predict_pipeline_failures Sample.biscoe Sample.models
                    (switched Sample.started "svm" (Some Sample.broken)) Sample.broken
                    eq_refl)).
    reflexivity.
Defined.

(** X9: a prediction that follows a successful switch is made by the newly
    loaded pipeline and is labelled with the newly selected name: when
    [select_model] succeeds for [req] and the loaded pipeline gives a
    sequence starting with [label] on the record's table, [select_model]
    followed by [predict] returns [label] with [model_used] equal to the
    requested name, whatever was active before. *)
Theorem predict_after_switch_uses_new_model
    (d : disk) (g : globals) (r : registry) (req : SelectModelRequest)
    (pipe : Pipeline) (features : PenguinFeatures) (label : string)
    (rest : list string) :
  REGISTRY g = Some (Dict r) ->
  model_name req ∈ get_available_models r ->
  artifact_loads d (model_name req) (Some pipe) ->
  sk_predict pipe (pd_DataFrame [features_dict features]) = Return (label :: rest) ->
  outcome_of ((select_model req;; predict features) d g) =
    Return {| prediction := label; model_used := Some (model_name req) |} ∧
  globals_of ((select_model req;; predict features) d g) =
    switched g (model_name req) (Some pipe).
Proof.
  intros Hr Hin Hp Hpred.
  rewrite (bind_return _ _ _ _ _ _ _
             (select_model_loaded d g r req (Some pipe) Hr Hin Hp)).
  rewrite (predict_with_model features d
             (switched g (model_name req) (Some pipe)) pipe eq_refl).
  cbv zeta. rewrite Hpred. split; reflexivity.
Qed.

Lemma predict_after_switch_uses_new_model_witness :
  outcome_of ((select_model {| model_name := "svm" |};; predict Sample.biscoe)
                Sample.models Sample.started) =
    Return {| prediction := "Gentoo"; model_used := Some "svm" |} ∧
  globals_of ((select_model {| model_name := "svm" |};; predict Sample.biscoe)
                Sample.models Sample.started) =
    switched Sample.started "svm" (Some Sample.svm).
Proof.
  apply (predict_after_switch_uses_new_model
           Sample.models Sample.started Sample.rf_svm {| model_name := "svm" |}
           Sample.svm Sample.biscoe "Gentoo" []).
  - reflexivity.
  - apply (bool_decide_unpack ("svm" ∈ ["rf"; "svm"; "knn"])). vm_compute. exact I.
  - vm_compute. reflexivity.
  - reflexivity.
Defined.

(** ** What a running service reports *)

(** X10: in every state reached by a completed startup followed by
    completed switches, [REGISTRY] holds a dict with a [default_model] and
    a name is active (the pipeline behind it is whatever its artifact
    unpickled to); [home] and [list_models] both return, report that same
    active name, and [list_models] reports the registry's default model
    and its list of models (empty when the key is absent). *)
Theorem serving_state_is_reported (g : globals) :
  serving g ->
  ∃ r dflt name,
    REGISTRY g = Some (Dict r) ∧ default_model r = Some dflt ∧
    ACTIVE_MODEL_NAME g = Some name ∧
    ∀ d,
      home d g =
        Ran (Return {| home_message := "API Penguins funcionando";
                       home_active_model := Some name |}) g [] ∧
      list_models d g =
        Ran (Return {| models_default_model := Some dflt;
                       models_available_models := get_available_models r;
                       models_active_model := Some name |}) g [].
Proof.
  intros Hs.
  assert (Hinv : ∃ r dflt name,
            REGISTRY g = Some (Dict r) ∧ default_model r = Some dflt ∧
            ACTIVE_MODEL_NAME g = Some name).
  { induction Hs as [d Hret|g d req resp Hs IH Hret].
    - destruct (startup_event_returns _ _ Hret)
        as (r & name & pipe & _ & Hdm & _ & Hg).
      rewrite Hg. exists r, name, name. repeat split; assumption.
    - destruct IH as (r & dflt & _ & Hr & Hdm & _).
      destruct (select_model_returns _ _ _ _ Hret) as (r' & pipe & Hr' & _ & _ & Hg).
      rewrite Hg. exists r, dflt, (model_name req). cbn.
      repeat split; assumption. }
  destruct Hinv as (r & dflt & name & Hr & Hdm & Hname).
  exists r, dflt, name. repeat split; try assumption.
  - unfold home. py_unfold. rewrite Hname. reflexivity.
  - unfold list_models.
    rewrite (bind_return _ _ _ _ _ _ _ (registry_dict_some d g r Hr)).
    py_unfold. rewrite Hname, Hdm. reflexivity.
Qed.

Lemma serving_state_is_reported_witness :
  let g := globals_of (select_model {| model_name := "svm" |} Sample.models
                         (globals_of (startup_event Sample.models initial_globals))) in
  serving g ∧
  ∃ r dflt name,
    REGISTRY g = Some (Dict r) ∧ default_model r = Some dflt ∧
    ACTIVE_MODEL_NAME g = Some name ∧
    ∀ d,
      home d g =
        Ran (Return {| home_message := "API Penguins funcionando";
                       home_active_model := Some name |}) g [] ∧
      list_models d g =
        Ran (Return {| models_default_model := Some dflt;
                       models_available_models := get_available_models r;
                       models_active_model := Some name |}) g [].
Proof.
  cbv zeta.
  assert (Hs : serving
            (globals_of (select_model {| model_name := "svm" |} Sample.models
               (globals_of (startup_event Sample.models initial_globals))))).
  { apply (serving_switch _ _ _
             {| select_message := "Modelo activo actualizado";
                select_active_model := Some "svm" |}).
    - apply serving_startup. vm_compute. reflexivity.
    - vm_compute. reflexivity. }
  split; [exact Hs|].
  exact (serving_state_is_reported _ Hs).
Defined.

(** ** The table built from a feature record *)

Lemma of_optional_float_inj a b :
  of_optional_float a = of_optional_float b -> a = b.
Proof. destruct a, b; cbn; congruence. Qed.

Lemma of_optional_str_inj a b :
  of_optional_str a = of_optional_str b -> a = b.
Proof. destruct a, b; cbn; congruence. Qed.

(** X11: the table [predict] hands to the pipeline loses nothing of the
    request: two feature records that give the same one-row table are the
    same record, so an omitted optional field (a [None] cell) is never
    confused with a given one and no two fields share a column. *)
Theorem features_table_determines_record (f1 f2 : PenguinFeatures) :
  pd_DataFrame [features_dict f1] = pd_DataFrame [features_dict f2] ->
  f1 = f2.
Proof.
  destruct f1 as [i1 bl1 bd1 fl1 bm1 s1 y1], f2 as [i2 bl2 bd2 fl2 bm2 s2 y2].
  unfold pd_DataFrame, features_dict. cbn.
  intros [= Hi Hbl Hbd Hfl Hbm Hs Hy].
  apply of_optional_float_inj in Hbl, Hbd, Hfl, Hbm.
  apply of_optional_str_inj in Hs. congruence.
Qed.

Lemma features_table_determines_record_witness :
  pd_DataFrame [features_dict Sample.biscoe] ≠ pd_DataFrame [features_dict Sample.dream].
Proof.
  intros Heq.
  pose proof (features_table_determines_record Sample.biscoe Sample.dream Heq) as H.
  discriminate H.
Defined.

(** ** What the endpoints read *)

(** X12: [select_model] depends on the disk through the one file at the
    requested model's path: on two disks that agree there it runs the
    same, whatever else differs, [registry.json] included (the registry is
    read at startup only).  [list_models] and [home] do not depend on the
    disk at all. *)
Theorem endpoints_read_only_the_requested_artifact
    (d d' : disk) (g : globals) (req : SelectModelRequest) :
  d !! model_path_of (model_name req) = d' !! model_path_of (model_name req) ->
  select_model req d g = select_model req d' g ∧
  list_models d g = list_models d' g ∧
  home d g = home d' g.
Proof.
  intros Hsame. split; [|split; [|reflexivity]].
  2: { unfold list_models, registry_dict. py_unfold.
       destruct (REGISTRY g) as [[r|v]|]; reflexivity. }
  destruct (REGISTRY_cases g) as [[r Hr]|Hr].
  - destruct (decide (model_name req ∈ get_available_models r)) as [Hin|Hn].
    + rewrite !(select_model_lookup _ g r req Hr Hin). cbv zeta.
      rewrite Hsame. reflexivity.
    + rewrite !(select_model_unlisted _ g r req Hr Hn). reflexivity.
  - unfold select_model.
    destruct (registry_dict_raises d g Hr) as [e He].
    destruct (registry_dict_raises d' g Hr) as [e' He'].
    rewrite (bind_raise _ _ _ _ _ _ _ He), (bind_raise _ _ _ _ _ _ _ He').
    unfold registry_dict in He, He'. revert He He'. py_unfold.
    destruct (REGISTRY g) as [[r|v]|]; cbn; congruence.
Qed.

Lemma endpoints_read_only_the_requested_artifact_witness :
  Sample.models !! REGISTRY_PATH ≠ Sample.models_edited !! REGISTRY_PATH ∧
  select_model {| model_name := "svm" |} Sample.models Sample.started =
    select_model {| model_name := "svm" |} Sample.models_edited Sample.started ∧
  list_models Sample.models Sample.started =
    list_models Sample.models_edited Sample.started ∧
  home Sample.models Sample.started = home Sample.models_edited Sample.started.
Proof.
  split.
  - vm_compute. discriminate.
  - apply (endpoints_read_only_the_requested_artifact
             Sample.models Sample.models_edited Sample.started
             {| model_name := "svm" |}).
    vm_compute. reflexivity.
Defined.

(** X13: the only file-system calls [select_model] ever makes are an
    existence test and a [joblib.load], both on the requested model's
    path, and the load only after the test; it never opens
    [registry.json] or another model's artifact, and it calls no
    pipeline. *)
Theorem select_model_touches_only_the_model_path
    (d : disk) (g : globals) (req : SelectModelRequest) :
  let path := model_path_of (model_name req) in
  io_of (select_model req d g) = [] ∨
  io_of (select_model req d g) = [PathExists path] ∨
  io_of (select_model req d g) = [PathExists path; JoblibLoad path].
Proof.
  cbv zeta. destruct (REGISTRY_cases g) as [[r Hr]|Hr].
  - destruct (decide (model_name req ∈ get_available_models r)) as [Hin|Hn].
    + rewrite (select_model_lookup d g r req Hr Hin). cbv zeta.
      destruct (d !! model_path_of (model_name req)) as [[r'|v|obj| |e]|];
        cbn; auto.
    + rewrite (select_model_unlisted d g r req Hr Hn). auto.
  - destruct (select_model_not_a_dict d g req Hr) as [e ->]. auto.
Qed.

(** ** A registry file that is not a JSON object *)

(** X14: [startup_event] assigns to [REGISTRY] whatever [json.load]
    returned before it looks into it.  On a [registry.json] that holds
    [null] or another value that is not an object, startup fails on
    [REGISTRY.get] with an [AttributeError] after that value has replaced
    the registry, and touches no artifact.  The active name and pipeline
    stay, so [predict] and [home] answer as before, while [list_models]
    and [select_model] now fail with the same [AttributeError]. *)
Theorem startup_stores_non_object_registry
    (d : disk) (g : globals) (v : option non_dict) :
  d !! REGISTRY_PATH = Some (JsonNonObject v) ->
  let boot := startup_event d g in
  let failure := get_on_non_dict v in
  outcome_of boot = Raise failure ∧
  REGISTRY (globals_of boot) = NonDict <$> v ∧
  ACTIVE_MODEL_NAME (globals_of boot) = ACTIVE_MODEL_NAME g ∧
  ACTIVE_MODEL_PIPE (globals_of boot) = ACTIVE_MODEL_PIPE g ∧
  io_of boot = [PathExists REGISTRY_PATH; JsonLoad REGISTRY_PATH] ∧
  ∀ d' req features,
    list_models d' (globals_of boot) = Ran (Raise failure) (globals_of boot) [] ∧
    select_model req d' (globals_of boot) = Ran (Raise failure) (globals_of boot) [] ∧
    outcome_of (predict features d' (globals_of boot)) =
      outcome_of (predict features d' g) ∧
    outcome_of (home d' (globals_of boot)) = outcome_of (home d' g).
Proof.
  intros Hd. cbv zeta. rewrite (startup_event_non_object d g v Hd).
  cbn [outcome_of globals_of io_of].
  split; [destruct v; reflexivity|]. split; [reflexivity|].
  split; [reflexivity|]. split; [reflexivity|]. split; [reflexivity|].
  intros d' req features.
  assert (Hget : registry_dict d' (Py.set_REGISTRY (NonDict <$> v) g) =
                 Ran (Raise (get_on_non_dict v)) (Py.set_REGISTRY (NonDict <$> v) g) []).
  { unfold registry_dict. py_unfold. destruct v; reflexivity. }
  split; [unfold list_models; apply bind_raise, Hget|].
  split; [unfold select_model; apply bind_raise, Hget|].
  split; [|reflexivity].
  destruct (ACTIVE_MODEL_PIPE g) as [pipe|] eqn:Hp.
  - rewrite (predict_with_model features d' g pipe Hp).
    rewrite (predict_with_model features d' (Py.set_REGISTRY _ g) pipe Hp).
    reflexivity.
  - rewrite (predict_no_model features d' g Hp).
    rewrite (predict_no_model features d' (Py.set_REGISTRY _ g) Hp).
    reflexivity.
Qed.

Lemma startup_stores_non_object_registry_witness :
  let boot := startup_event Sample.models_list_registry Sample.started in
  let again := startup_event Sample.models_null_registry Sample.started in
  (outcome_of boot = Raise (AttributeError "'list' object has no attribute 'get'") ∧
   REGISTRY (globals_of boot) = Some (NonDict JsonList) ∧
   ACTIVE_MODEL_NAME (globals_of boot) = Some "rf" ∧
   outcome_of (list_models Sample.models (globals_of boot)) =
     Raise (AttributeError "'list' object has no attribute 'get'") ∧
   outcome_of (predict Sample.biscoe Sample.models (globals_of boot)) =
     Return {| prediction := "Adelie"; model_used := Some "rf" |}) ∧
  (outcome_of again =
     Raise (AttributeError "'NoneType' object has no attribute 'get'") ∧
   REGISTRY (globals_of again) = None ∧
   ACTIVE_MODEL_NAME (globals_of again) = Some "rf").
Proof.
  cbv zeta. split.
  - destruct (startup_stores_non_object_registry
                Sample.models_list_registry Sample.started (Some JsonList))
      as (Hout & Hreg & Hname & _ & _ & Hafter); [vm_compute; reflexivity|].
    destruct (Hafter Sample.models {| model_name := "rf" |} Sample.biscoe)
      as (Hlist & _ & Hpredict & _).
    split; [exact Hout|]. split; [exact Hreg|]. split; [exact Hname|].
    split; [rewrite Hlist; reflexivity|]. rewrite Hpredict. reflexivity.
  - destruct (startup_stores_non_object_registry
                Sample.models_null_registry Sample.started None)
      as (Hout & Hreg & Hname & _); [vm_compute; reflexivity|].
    split; [exact Hout|]. split; [exact Hreg|]. exact Hname.
Defined.
